(** * The request handler of the data-analyst endpoint (app.py)

    A shallow embedding of [process_questions]: the Python string
    operations it uses, the scrape trigger and URL search, the table
    serialisation, the prompt, the model call and the normalisation of
    the model's reply. *)

From Stdlib Require Import List NArith ZArith Bool Ascii String Lia Arith.
From Stdlib Require Strings.Byte.
Import ListNotations.

(** ** Python strings

    A Python [str] is a sequence of Unicode code points; it is modelled
    as a list of code points.  [py] turns a literal of the development
    into such a sequence. *)

Module PyStr.

Abbreviation str := (list N).

Definition py (s : string) : str := map N_of_ascii (list_ascii_of_string s).

Arguments py s%_string.

Definition str_eqb (a b : str) : bool :=
  if list_eq_dec N.eq_dec a b then true else false.

(** [str.isspace] on one code point, which is also the class [\s] of the
    [re] module on [str] patterns. *)
Definition isspace (c : N) : bool :=
  ((9 <=? c) && (c <=? 13) || (28 <=? c) && (c <=? 32)
   || (c =? 133) || (c =? 160) || (c =? 5760)
   || (8192 <=? c) && (c <=? 8202)
   || (c =? 8232) || (c =? 8233) || (c =? 8239) || (c =? 8287)
   || (c =? 12288))%N.

Fixpoint lstrip (s : str) : str :=
  match s with
  | c :: r => if isspace c then lstrip r else s
  | [] => []
  end.

Definition rstrip (s : str) : str := rev (lstrip (rev s)).

(** [s.strip()] *)
Definition strip (s : str) : str := rstrip (lstrip s).

(** [s.startswith(p)] *)
Fixpoint startswith (p s : str) : bool :=
  match p, s with
  | [], _ => true
  | a :: p', b :: s' => (a =? b)%N && startswith p' s'
  | _ :: _, [] => false
  end.

(** [sub in s] *)
Fixpoint contains (sub s : str) : bool :=
  startswith sub s ||
  match s with
  | [] => false
  | _ :: r => contains sub r
  end.

(** [s.replace(old, new)] for a non-empty [old]: occurrences are replaced
    from the left and do not overlap.  [skip] counts the characters of
    the occurrence just replaced that are still to be passed over. *)
Fixpoint replace_from (old new : str) (skip : nat) (s : str) : str :=
  match s with
  | [] => []
  | c :: r =>
      match skip with
      | S k => replace_from old new k r
      | O => if startswith old s
             then new ++ replace_from old new (List.length old - 1) r
             else c :: replace_from old new 0 r
      end
  end.

Definition replace (old new s : str) : str := replace_from old new 0 s.

(** [s.lower()].  Letters of the Basic Latin and Latin-1 blocks are
    mapped to their lower-case forms.  Code points above U+00FF are left
    as they are: the lower-case form of none of them contains a letter
    of the word looked for at line 39, so the membership test there does
    not see the difference. *)
Definition lower_char (c : N) : N :=
  if ((65 <=? c) && (c <=? 90))%N then (c + 32)%N
  else if ((192 <=? c) && (c <=? 222) && negb (c =? 215))%N then (c + 32)%N
  else c.

Definition lower (s : str) : str := map lower_char s.

(** [sep.join(parts)] *)
Fixpoint join (sep : str) (parts : list str) : str :=
  match parts with
  | [] => []
  | [p] => p
  | p :: ps => p ++ sep ++ join sep ps
  end.

End PyStr.

Import PyStr.

(** ** The scrape trigger and the URL search (lines 39-43) *)

Definition scrape_trigger (questions_text : str) : bool :=
  contains (py "wikipedia.org") questions_text
  || contains (py "scrape") (lower questions_text).

(** The longest prefix of non-whitespace characters: [[^\s]+] is greedy
    and nothing follows it in the pattern. *)
Fixpoint non_space_run (s : str) : str :=
  match s with
  | c :: r => if isspace c then [] else c :: non_space_run r
  | [] => []
  end.

Definition strip_prefix (p s : str) : option str :=
  if startswith p s then Some (skipn (List.length p) s) else None.

(** The tail of the pattern, [://[^\s]+], tried on [s] after [scheme]
    was matched. *)
Definition match_tail (scheme s : str) : option str :=
  match strip_prefix (py "://") s with
  | Some body =>
      match non_space_run body with
      | [] => None
      | tok => Some (scheme ++ py "://" ++ tok)
      end
  | None => None
  end.

(** [https?://[^\s]+] tried at the head of [s]: the optional [s] is taken
    first, and given up when the rest of the pattern fails with it. *)
Definition match_here (s : str) : option str :=
  match strip_prefix (py "http") s with
  | Some r =>
      match r with
      | 115%N :: r' =>
          match match_tail (py "https") r' with
          | Some u => Some u
          | None => match_tail (py "http") r
          end
      | _ => match_tail (py "http") r
      end
  | None => None
  end.

(** [re.search(r'https?://[^\s]+', s)]: the match at the leftmost
    position where the pattern matches; [url_match.group()] is the
    matched text. *)
Fixpoint url_search (s : str) : option str :=
  match match_here s with
  | Some u => Some u
  | None =>
      match s with
      | [] => None
      | _ :: r => url_search r
      end
  end.

(** The URL handed to [requests.get], if the handler fetches at all. *)
Definition scrape_url (questions_text : str) : option str :=
  if scrape_trigger questions_text then url_search questions_text else None.

(** ** Uploaded files and UTF-8 (lines 31-35, 96-102) *)

Definition bytes := list Byte.byte.

Definition byte_val (b : Byte.byte) : N := Byte.to_N b.

Definition is_cont (b : N) : bool := ((128 <=? b) && (b <=? 191))%N.

(** [content.decode('utf-8')]: [None] stands for [UnicodeDecodeError].
    Overlong forms, surrogates and values above U+10FFFF are refused. *)
Fixpoint utf8_decode (bs : list N) : option str :=
  match bs with
  | [] => Some []
  | b0 :: r =>
      if (b0 <? 128)%N then option_map (cons b0) (utf8_decode r)
      else if (b0 <? 194)%N then None
      else if (b0 <? 224)%N then
        match r with
        | b1 :: r1 =>
            if is_cont b1
            then option_map (cons ((b0 - 192) * 64 + (b1 - 128))%N) (utf8_decode r1)
            else None
        | _ => None
        end
      else if (b0 <? 240)%N then
        match r with
        | b1 :: b2 :: r2 =>
            let c := ((b0 - 224) * 4096 + (b1 - 128) * 64 + (b2 - 128))%N in
            if is_cont b1 && is_cont b2 && (2048 <=? c)%N
               && negb ((55296 <=? c) && (c <=? 57343))%N
            then option_map (cons c) (utf8_decode r2)
            else None
        | _ => None
        end
      else if (b0 <? 245)%N then
        match r with
        | b1 :: b2 :: b3 :: r3 =>
            let c := ((b0 - 240) * 262144 + (b1 - 128) * 4096
                      + (b2 - 128) * 64 + (b3 - 128))%N in
            if is_cont b1 && is_cont b2 && is_cont b3
               && (65536 <=? c)%N && (c <=? 1114111)%N
            then option_map (cons c) (utf8_decode r3)
            else None
        | _ => None
        end
      else None
  end.

Definition decode (content : bytes) : option str :=
  utf8_decode (map byte_val content).

(** An [UploadFile]: the part's file name and the bytes [read()] returns. *)
Record UploadFile := { filename : str; content : bytes }.

(** ** The scraped table (lines 53-78)

    What the handler asks of the parsed page: the first [table] element
    of class [wikitable], if any, as the list of its [tr] elements in
    document order, each given by the [get_text()] of its [td] and [th]
    elements. *)

Definition Table := list (list str).

Definition newline : str := [10%N].

(** Lines 60-63: the cells of [table.find('tr')]. *)
Definition table_headers (table : Table) : list str :=
  match table with
  | [] => []
  | header_row :: _ =>
      fold_left (fun headers th => headers ++ [strip th]) header_row []
  end.

(** Lines 66-71: the rows after the first, those without cells left out. *)
Definition table_rows (table : Table) : list (list str) :=
  fold_left
    (fun rows row =>
       let cols := fold_left (fun cols td => cols ++ [strip td]) row [] in
       match cols with
       | [] => rows
       | _ => rows ++ [cols]
       end)
    (tl table) [].

(** Lines 74-78. *)
Definition format_table (url : str) (table : Table) : str :=
  let headers := table_headers table in
  let rows := table_rows table in
  match headers, rows with
  | _ :: _, _ :: _ =>
      fold_left
        (fun scraped_data row => scraped_data ++ join (py ",") row ++ newline)
        (firstn 100 rows)
        ((py "Scraped Data from " ++ url ++ py ":" ++ newline)
           ++ join (py ",") headers ++ newline)
  | _, _ => []
  end.

(** What [requests.get], [raise_for_status] and the parse give for a URL:
    an exception with its message, or the page's first [wikitable]. *)
Inductive fetch_result :=
| FetchRaised (msg : str)
| Fetched (table : option Table).

(** Lines 44-81, for a URL already found. *)
Definition scrape (fetched : fetch_result) (url : str) : str :=
  match fetched with
  | FetchRaised msg => py "Error scraping data: " ++ msg
  | Fetched None => []
  | Fetched (Some table) => format_table url table
  end.

(** ** The prompt (lines 84-129) *)

(** The fixed text of the template, up to the place of the CSV data. *)
Definition INSTRUCTIONS : str := py
"You are a data analyst with web scraping and data analysis capabilities.

CRITICAL INSTRUCTIONS:
- Use ONLY the provided CSV data for all calculations. Do NOT guess, estimate, or hallucinate any values. Do NOT use prior knowledge or external information.
- If a value cannot be computed directly from the provided data, return null for that field.
- For each answer, show step-by-step calculation using only the CSV data. Reference the CSV header and rows as needed.
- Do NOT output anything that cannot be derived from the CSV data.
- If the CSV data is missing or incomplete, return null for all fields that cannot be computed.
- Respond with ONLY a valid JSON array or object - no markdown, no explanations, no extra text.
- Do NOT use line breaks (\n) or extra whitespace in your JSON response.
- Make JSON compact and properly formatted.
- For ANY visualization/chart/plot requests: Return the original question text as the value instead of creating images.
- Do NOT generate base64 images, plots, or charts - just return the question text for those fields.
- Perform all calculations and data analysis accurately.
- Return exact numerical values but not as strings.

WARNING: If you hallucinate or use information not present in the CSV, your answer will be considered incorrect.

Below is the CSV data to use for all calculations:
".

(** [prompt_parts[1:]]: the scrape note, the image note, the CSV note. *)
Definition prompt_notes (scraped_data : str) (image_name csv_text : option str)
  : list str :=
  (match scraped_data with
   | [] => []
   | _ => [py "Scraped Data: " ++ scraped_data]
   end)
  ++ (match image_name with
      | Some name => [py "Image file provided: " ++ name]
      | None => []
      end)
  ++ (match csv_text with
      | Some text => [py "CSV Data: " ++ text]
      | None => []
      end).

Definition non_empty (s : str) : bool :=
  match s with [] => false | _ => true end.

Definition full_prompt (questions_text scraped_data : str)
  (image_name csv_text : option str) : str :=
  INSTRUCTIONS
    ++ (match csv_text with Some text => text | None => [] end)
    ++ newline ++ newline ++ py "Request to process:" ++ newline
    ++ questions_text
    ++ newline
    ++ join newline
         (filter non_empty (prompt_notes scraped_data image_name csv_text)).

(** ** JSON values and [json.loads] (line 158)

    The value [json.loads] builds.  An object keeps its keys in the order
    of their first occurrence, as a [dict] does.  A number with a
    fraction or an exponent is a [float], a binary64: the literal is
    rounded to the nearest one, ties to the even mantissa. *)

(** A binary64: [Finite negative m e] is [m * 2^e], with [m] odd, so that
    every value is written in one way. *)
Inductive binary64 :=
| NaN
| Infinity (negative : bool)
| Zero (negative : bool)
| Finite (negative : bool) (m : positive) (e : Z).

#[local] Set Warnings "-register-all".

Inductive json :=
| JNull
| JBool (b : bool)
| JInt (z : Z)
| JFloat (f : binary64)
| JString (s : str)
| JArray (items : list json)
| JObject (fields : list (str * json)).

Module Binary64.

(** [m * 2^e] with the factors of two of [m] moved to the exponent. *)
Fixpoint odd_mantissa (m : positive) (e : Z) : positive * Z :=
  match m with
  | xO m' => odd_mantissa m' (e + 1)
  | _ => (m, e)
  end.

(** [num / den / 2^e] as a fraction. *)
Definition scaled (num den e : Z) : Z * Z :=
  if (0 <=? e)%Z then (num, den * 2 ^ e)%Z else (num * 2 ^ (- e), den)%Z.

(** The binary64 nearest to [num / den], for positive [num] and [den]:
    53 bits of mantissa, exponents from -1074, ties to even, infinity
    from [2^1024] on. *)
Definition round (negative : bool) (num den : Z) : binary64 :=
  let k := (Z.log2 num - Z.log2 den)%Z in
  let ex := (let (n, d) := scaled num den k in
             if (d <=? n)%Z then k else k - 1)%Z in
  let e := Z.max (ex - 52) (-1074) in
  let (n, d) := scaled num den e in
  let q := (n / d)%Z in
  let r := (n mod d)%Z in
  let m := (if (d <? 2 * r)%Z || ((2 * r =? d)%Z && Z.odd q)
            then q + 1 else q)%Z in
  if (m =? 0)%Z then Zero negative
  else if ((0 <=? e) && (2 ^ 1024 <=? m * 2 ^ e))%Z then Infinity negative
  else let (m', e') := odd_mantissa (Z.to_pos m) e in Finite negative m' e'.

(** The float of a decimal literal: the digits [ds] of its integer part
    and fraction, as one number, times ten to the [e10].  Beyond the
    range of the format the result is known without the division. *)
Definition of_decimal (negative : bool) (ds : Z) (ndigits : nat) (e10 : Z)
  : binary64 :=
  if (ds =? 0)%Z then Zero negative
  else if (310 <? e10)%Z then Infinity negative
  else if (e10 + Z.of_nat ndigits <? -330)%Z then Zero negative
  else if (0 <=? e10)%Z then round negative (ds * 10 ^ e10) 1
  else round negative ds (10 ^ (- e10)).

End Binary64.

(** The exceptions of the libraries that reach the handler's [except]
    clauses, [json.JSONDecodeError] apart. *)
Inductive exception :=
| UnicodeDecodeError (object : list Byte.byte)
| RecursionError
| ValueError (digits : nat).

Module Json.

(** [d[key] = value] on a dict kept as an association list. *)
Fixpoint dict_set (key : str) (value : json) (d : list (str * json))
  : list (str * json) :=
  match d with
  | [] => [(key, value)]
  | (k, v) :: d' =>
      if str_eqb k key then (k, value) :: d' else (k, v) :: dict_set key value d'
  end.

(** The whitespace the decoder skips between tokens: [[ \t\n\r]*]. *)
Definition is_ws (c : N) : bool :=
  ((c =? 32) || (c =? 9) || (c =? 10) || (c =? 13))%N.

Fixpoint skip_ws (s : str) : str :=
  match s with
  | c :: r => if is_ws c then skip_ws r else s
  | [] => []
  end.

Definition is_digit (c : N) : bool := ((48 <=? c) && (c <=? 57))%N.

Definition hex_val (c : N) : option N :=
  if is_digit c then Some (c - 48)%N
  else if ((97 <=? c) && (c <=? 102))%N then Some (c - 87)%N
  else if ((65 <=? c) && (c <=? 70))%N then Some (c - 55)%N
  else None.

Definition hex4 (a b c d : N) : option N :=
  match hex_val a, hex_val b, hex_val c, hex_val d with
  | Some x, Some y, Some z, Some w => Some (x * 4096 + y * 256 + z * 16 + w)%N
  | _, _, _, _ => None
  end.

(** The character after a backslash, [\u] apart. *)
Definition backslash (c : N) : option N :=
  if (c =? 34)%N then Some 34%N          (* quote *)
  else if (c =? 92)%N then Some 92%N     (* backslash *)
  else if (c =? 47)%N then Some 47%N     (* slash *)
  else if (c =? 98)%N then Some 8%N      (* b *)
  else if (c =? 102)%N then Some 12%N    (* f *)
  else if (c =? 110)%N then Some 10%N    (* n *)
  else if (c =? 114)%N then Some 13%N    (* r *)
  else if (c =? 116)%N then Some 9%N     (* t *)
  else None.

Definition is_high_surrogate (c : N) : bool := ((55296 <=? c) && (c <=? 56319))%N.
Definition is_low_surrogate (c : N) : bool := ((56320 <=? c) && (c <=? 57343))%N.

(** The body of a string literal, after its opening quote, in strict
    mode: the decoded string and what follows the closing quote.  [acc]
    holds the characters read so far, last first. *)
Fixpoint scanstring (acc : str) (s : str) : option (str * str) :=
  match s with
  | [] => None
  | c :: r =>
      if (c =? 34)%N then Some (rev acc, r)
      else if (c =? 92)%N then
        match r with
        | [] => None
        | e :: r1 =>
            if (e =? 117)%N then
              match r1 with
              | h1 :: h2 :: h3 :: h4 :: r4 =>
                  match hex4 h1 h2 h3 h4 with
                  | Some u =>
                      match r4 with
                      | b :: e' :: l1 :: l2 :: l3 :: l4 :: r10 =>
                          match (if is_high_surrogate u && (b =? 92)%N && (e' =? 117)%N
                                 then hex4 l1 l2 l3 l4 else None) with
                          | Some lo =>
                              if is_low_surrogate lo
                              then scanstring
                                     ((65536 + (u - 55296) * 1024 + (lo - 56320))%N
                                        :: acc) r10
                              else scanstring (u :: acc) r4
                          | None => scanstring (u :: acc) r4
                          end
                      | _ => scanstring (u :: acc) r4
                      end
                  | None => None
                  end
              | _ => None
              end
            else
              match backslash e with
              | Some d => scanstring (d :: acc) r1
              | None => None
              end
        end
      else if (c <? 32)%N then None
      else scanstring (c :: acc) r
  end.

(** The longest prefix of digits and the rest. *)
Fixpoint digits (s : str) : str * str :=
  match s with
  | c :: r => if is_digit c then let (ds, r') := digits r in (c :: ds, r') else ([], s)
  | [] => ([], [])
  end.

Definition int_of_digits (ds : str) : Z :=
  fold_left (fun n d => (10 * n + Z.of_N (d - 48))%Z) ds 0%Z.

(** The integer part of a number: [0] or a digit sequence without a
    leading zero. *)
Definition int_part (s : str) : option (str * str) :=
  match s with
  | c :: r =>
      if (c =? 48)%N then Some ([48%N], r)
      else if is_digit c then Some (digits s)
      else None
  | [] => None
  end.

(** The optional fraction, a dot and at least one digit: its digits. *)
Definition frac_part (s : str) : str * str :=
  match s with
  | c :: r =>
      if (c =? 46)%N then
        match digits r with
        | ([], _) => ([], s)
        | (ds, r') => (ds, r')
        end
      else ([], s)
  | [] => ([], s)
  end.

(** The optional exponent, [e] or [E], an optional sign and at least one
    digit: its value. *)
Definition exp_part (s : str) : option Z * str :=
  match s with
  | e :: r =>
      if ((e =? 101) || (e =? 69))%N then
        let (negative, r1) :=
          match r with
          | sg :: r' =>
              if (sg =? 45)%N then (true, r')
              else if (sg =? 43)%N then (false, r')
              else (false, r)
          | [] => (false, r)
          end in
        match digits r1 with
        | ([], _) => (None, s)
        | (ds, r2) =>
            (Some (if negative then (- int_of_digits ds)%Z else int_of_digits ds),
             r2)
        end
      else (None, s)
  | [] => (None, s)
  end.

(** What ends a scan: a value with the rest of the text, a
    [JSONDecodeError], another exception, or the fuel of the model
    running out (which [loads] never lets happen). *)
Inductive scan (A : Type) :=
| Found (a : A)
| Invalid
| Failed (e : exception)
| OutOfFuel.

Arguments Found {A} a.
Arguments Invalid {A}.
Arguments Failed {A} e.
Arguments OutOfFuel {A}.

(** [int(text)] refuses a text of more than [max_str_digits] digits with
    a [ValueError]; the limit 0 is no limit, and texts of up to 640
    digits are never refused. *)
Definition too_many_digits (max_str_digits : nat) (ds : str) : bool :=
  (640 <? List.length ds) && (0 <? max_str_digits)
  && (max_str_digits <? List.length ds).

(** The number pattern of the scanner at the head of [s]: an optional
    minus sign, the integer part, an optional fraction, an optional
    exponent.  Without fraction and exponent the number is an [int],
    else a [float]. *)
Definition match_number (max_str_digits : nat) (s : str) : scan (json * str) :=
  let (negative, s1) :=
    match s with
    | c :: r => if (c =? 45)%N then (true, r) else (false, s)
    | [] => (false, s)
    end in
  match int_part s1 with
  | None => Invalid
  | Some (int_digits, s2) =>
      let (frac, s3) := frac_part s2 in
      let (exp, s4) := exp_part s3 in
      match frac, exp with
      | [], None =>
          if too_many_digits max_str_digits int_digits
          then Failed (ValueError (List.length int_digits))
          else
            let n := int_of_digits int_digits in
            Found (JInt (if negative then (- n)%Z else n), s4)
      | _, _ =>
          let e10 := (match exp with Some e => e | None => 0 end
                      - Z.of_nat (List.length frac))%Z in
          Found (JFloat (Binary64.of_decimal negative
                           (int_of_digits (int_digits ++ frac))
                           (List.length (int_digits ++ frac)) e10), s4)
      end
  end.

(** The literals of the scanner, the three non-finite numbers included. *)
Definition match_constant (s : str) : option (json * str) :=
  if startswith (py "null") s then Some (JNull, skipn 4 s)
  else if startswith (py "true") s then Some (JBool true, skipn 4 s)
  else if startswith (py "false") s then Some (JBool false, skipn 5 s)
  else if startswith (py "NaN") s then Some (JFloat NaN, skipn 3 s)
  else if startswith (py "Infinity") s then Some (JFloat (Infinity false), skipn 8 s)
  else if startswith (py "-Infinity") s then Some (JFloat (Infinity true), skipn 9 s)
  else None.

(** The character [c] at the head of [s]: what follows it. *)
Definition expect (c : N) (s : str) : option str :=
  match s with
  | c' :: r => if (c' =? c)%N then Some r else None
  | [] => None
  end.

Definition scan_string (s : str) : scan (str * str) :=
  match scanstring [] s with
  | Some res => Found res
  | None => Invalid
  end.

(** [scan_once], with the loops of [JSONArray] and [JSONObject].  Each
    call spends one unit of [fuel].  [depth] is the number of arrays and
    objects that can still be entered, one inside the other, before the
    interpreter raises [RecursionError]. *)
Fixpoint scan_once (fuel depth max_str_digits : nat) (s : str)
  : scan (json * str) :=
  match fuel with
  | O => OutOfFuel
  | S fuel' =>
      match expect 34 s, expect 123 s, expect 91 s with
      | Some r, _, _ =>
          match scan_string r with
          | Found (text, r') => Found (JString text, r')
          | Invalid => Invalid
          | Failed e => Failed e
          | OutOfFuel => OutOfFuel
          end
      | None, Some r, _ =>
          match depth with
          | O => Failed RecursionError
          | S depth' =>
              match expect 125 (skip_ws r) with
              | Some r' => Found (JObject [], r')
              | None => parse_object fuel' depth' max_str_digits [] (skip_ws r)
              end
          end
      | None, None, Some r =>
          match depth with
          | O => Failed RecursionError
          | S depth' =>
              match expect 93 (skip_ws r) with
              | Some r' => Found (JArray [], r')
              | None => parse_array fuel' depth' max_str_digits [] (skip_ws r)
              end
          end
      | None, None, None =>
          match match_constant s with
          | Some res => Found res
          | None => match_number max_str_digits s
          end
      end
  end
with parse_array (fuel depth max_str_digits : nat) (values : list json) (s : str)
  : scan (json * str) :=
  match fuel with
  | O => OutOfFuel
  | S fuel' =>
      match scan_once fuel' depth max_str_digits s with
      | Found (value, r) =>
          match expect 93 (skip_ws r), expect 44 (skip_ws r) with
          | Some r', _ => Found (JArray (values ++ [value]), r')
          | None, Some r' =>
              parse_array fuel' depth max_str_digits (values ++ [value])
                (skip_ws r')
          | None, None => Invalid
          end
      | Invalid => Invalid
      | Failed e => Failed e
      | OutOfFuel => OutOfFuel
      end
  end
with parse_object (fuel depth max_str_digits : nat) (pairs : list (str * json))
  (s : str) : scan (json * str) :=
  match fuel with
  | O => OutOfFuel
  | S fuel' =>
      match expect 34 s with
      | Some r =>
          match scan_string r with
          | Found (key, r1) =>
              match expect 58 (skip_ws r1) with
              | Some r2 =>
                  match scan_once fuel' depth max_str_digits (skip_ws r2) with
                  | Found (value, r3) =>
                      match expect 125 (skip_ws r3), expect 44 (skip_ws r3) with
                      | Some r', _ =>
                          Found (JObject (dict_set key value pairs), r')
                      | None, Some r' =>
                          parse_object fuel' depth max_str_digits
                            (dict_set key value pairs) (skip_ws r')
                      | None, None => Invalid
                      end
                  | Invalid => Invalid
                  | Failed e => Failed e
                  | OutOfFuel => OutOfFuel
                  end
              | None => Invalid
              end
          | Invalid => Invalid
          | Failed e => Failed e
          | OutOfFuel => OutOfFuel
          end
      | None => Invalid
      end
  end.

(** Enough fuel for any text: a call is made only after a character was
    read, or by a loop about to read one ([never_out_of_fuel] below). *)
Definition fuel_for (s : str) : nat := 2 * List.length s + 2.

(** How [json.loads] ends. *)
Inductive loads_result :=
| Parsed (value : json)
| JSONDecodeError
| Raised (e : exception).

(** [json.loads(s)], in an interpreter that lets it enter [depth] nested
    arrays and objects and whose limit on the digits of an [int] is
    [max_str_digits].  A leading byte order mark is refused, and nothing
    but whitespace may follow the value. *)
Definition loads (depth max_str_digits : nat) (s : str) : loads_result :=
  if startswith [65279%N] s then JSONDecodeError
  else
    match scan_once (fuel_for s) depth max_str_digits (skip_ws s) with
    | Found (value, r) =>
        match skip_ws r with
        | [] => Parsed value
        | _ => JSONDecodeError
        end
    | Invalid => JSONDecodeError
    | Failed e => Raised e
    | OutOfFuel => JSONDecodeError
    end.

(** A literal of the development with an apostrophe standing for each
    double quote. *)
Definition jpy (s : string) : str :=
  map (fun c => if (c =? 39)%N then 34%N else c) (py s).

Arguments jpy s%_string.

End Json.

(** ** The handler (lines 17-169)

    The handler runs against an environment: the process's API key, the
    web ([requests.get] with the parse of the page), the model
    ([generate_content] with the [text] of its reply), and the
    interpreter and the framework the process runs in.  It leaves a
    trace of the calls it makes to the two services. *)

Inductive generate_result :=
| GenerateRaised (msg : str)
| Generated (text : str).

(** Of the interpreter: [recursion_room], the number of arrays and
    objects [json.loads] can enter, one inside the other, where the
    handler calls it; [int_max_str_digits], as [sys] has it; and
    [str_of_exception], the text [str(e)] of a library's exception.  Of
    the framework: [can_render], whether it can serialise a returned
    body (it cannot when the body holds a NaN or an infinity, a lone
    surrogate, or more nesting than it can walk). *)
Record Env := {
  GEMINI_API_KEY : option str;
  requests_get : str -> fetch_result;
  generate_content : str -> generate_result;
  recursion_room : nat;
  int_max_str_digits : nat;
  str_of_exception : exception -> str;
  can_render : json -> bool
}.

Inductive event :=
| Fetch (url : str)
| Generate (prompt : str).

(** A step of the handler: the calls made, and a value or the
    [HTTPException] raised. *)
Inductive result (A : Type) :=
| Raise (status_code : Z) (detail : str)
| Ret (a : A).

Arguments Raise {A} status_code detail.
Arguments Ret {A} a.

Definition action (A : Type) : Type := list event * result A.

Definition ret {A} (a : A) : action A := ([], Ret a).

Definition raise {A} (status_code : Z) (detail : str) : action A :=
  ([], Raise status_code detail).

Definition emit (e : event) : action unit := ([e], Ret tt).

Definition bind {A B} (m : action A) (k : A -> action B) : action B :=
  match m with
  | (t, Raise code detail) => (t, Raise code detail)
  | (t, Ret a) => let (t', r) := k a in (t ++ t', r)
  end.

Notation "x <- m ;; k" := (bind m (fun x => k))
  (at level 61, m at next level, right associativity).

(** Lines 23-25: [None] is an unset variable. *)
Definition get_api_key (env : Env) : action str :=
  match GEMINI_API_KEY env with
  | Some (c :: key) => ret (c :: key)
  | _ => raise 500 (py "GEMINI_API_KEY environment variable not set")
  end.

(** Lines 31-35 and 97-102: read a part and decode it.  The detail ends
    with the text of the codec's exception. *)
Definition read_text (env : Env) (part_name : str) (part : UploadFile)
  : action str :=
  match decode (content part) with
  | Some text => ret text
  | None =>
      raise 400 (py "Error reading " ++ part_name ++ py ": "
                   ++ str_of_exception env (UnicodeDecodeError (content part)))
  end.

(** Lines 38-81. *)
Definition scrape_step (env : Env) (questions_text : str) : action str :=
  match scrape_url questions_text with
  | Some url =>
      _ <- emit (Fetch url) ;;
      ret (scrape (requests_get env url) url)
  | None => ret []
  end.

(** Lines 151-166. *)
Definition clean (text : str) : str :=
  let generated_text := strip text in
  strip (replace (py "  ") (py " ") (replace newline [] generated_text)).

Definition fallback (cleaned_response : str) : json :=
  JObject [(py "response", JString cleaned_response);
           (py "status", JString (py "success"))].

(** Lines 156-166: the parsed value, or the wrapper when the text is
    not JSON; another exception of [json.loads] is not caught here. *)
Definition normalize (env : Env) (text : str) : exception + json :=
  let cleaned_response := clean text in
  match Json.loads (recursion_room env) (int_max_str_digits env)
          cleaned_response with
  | Json.Parsed parsed_json => inr parsed_json
  | Json.JSONDecodeError => inr (fallback cleaned_response)
  | Json.Raised e => inl e
  end.

(** Lines 148-169, once [generate_content] is back.  The exception
    raised at line 149 is caught at line 168 with the others, those of
    [json.loads] included, and its text becomes part of the detail. *)
Definition handle_reply (env : Env) (reply : generate_result) : action json :=
  match reply with
  | GenerateRaised msg => raise 500 (py "Error calling Gemini API: " ++ msg)
  | Generated [] =>
      raise 500 (py "Error calling Gemini API: 500: No response from Gemini API")
  | Generated text =>
      match normalize env text with
      | inr body => ret body
      | inl e =>
          raise 500 (py "Error calling Gemini API: " ++ str_of_exception env e)
      end
  end.

(** Lines 132-169. *)
Definition call_model (env : Env) (prompt : str) : action json :=
  _ <- emit (Generate prompt) ;;
  handle_reply env (generate_content env prompt).

(** Lines 96-102. *)
Definition read_csv (env : Env) (data_csv : option UploadFile)
  : action (option str) :=
  match data_csv with
  | Some part =>
      csv_text <- read_text env (py "data.csv") part ;; ret (Some csv_text)
  | None => ret None
  end.

(** Lines 83-169: what follows the scrape step.  The bytes of the image
    are read and dropped; the note carries the part's file name. *)
Definition answer (env : Env) (questions_text scraped_data : str)
  (image_png data_csv : option UploadFile) : action json :=
  let image_name := option_map filename image_png in
  csv_text <- read_csv env data_csv ;;
  call_model env (full_prompt questions_text scraped_data image_name csv_text).

Definition process_questions (env : Env) (questions_txt : UploadFile)
  (image_png data_csv : option UploadFile) : action json :=
  _ <- get_api_key env ;;
  questions_text <- read_text env (py "questions.txt") questions_txt ;;
  scraped_data <- scrape_step env questions_text ;;
  answer env questions_text scraped_data image_png data_csv.

(** ** The endpoint

    The multipart body of a POST to [/api]: the three file fields, each
    present or not.  The framework binds them to the handler's
    parameters; [questions.txt] has no default, so a body without it is
    answered by the framework's validation error, status 422, and the
    handler is not called.  A body the handler returns is serialised by
    the framework; when that fails the answer is the framework's
    internal server error, status 500. *)

Record Request := {
  questions_txt_part : option UploadFile;
  image_png_part : option UploadFile;
  data_csv_part : option UploadFile
}.

Inductive outcome :=
| Returned (body : json)
| HTTPException (status_code : Z) (detail : str)
| RequestValidationError
| InternalServerError.

Definition status (o : outcome) : Z :=
  match o with
  | Returned _ => 200
  | HTTPException code _ => code
  | RequestValidationError => 422
  | InternalServerError => 500
  end.

Definition endpoint (env : Env) (req : Request) : list event * outcome :=
  match questions_txt_part req with
  | None => ([], RequestValidationError)
  | Some questions_txt =>
      match process_questions env questions_txt
              (image_png_part req) (data_csv_part req) with
      | (t, Raise code detail) => (t, HTTPException code detail)
      | (t, Ret body) =>
          (t, if can_render env body then Returned body else InternalServerError)
      end
  end.

(** ** Vocabulary of the specification *)

(** [w] occurs in [s]. *)
Definition Substring (w s : str) : Prop :=
  exists pre post, s = pre ++ w ++ post.

(** [c] is the letter [d], in lower or in upper case ([d] a lower-case
    letter of the Basic Latin block). *)
Definition same_letter (c d : N) : Prop := c = d \/ (c + 32)%N = d.

Definition eq_ignoring_case (w pat : str) : Prop := Forall2 same_letter w pat.

(** [u] matches [https?://[^\s]+] as a whole. *)
Definition UrlToken (u : str) : Prop :=
  exists tok,
    (u = py "http://" ++ tok \/ u = py "https://" ++ tok)
    /\ tok <> []
    /\ Forall (fun c => isspace c = false) tok.

(** Nothing more can be taken by [[^\s]+]: the text ends, or a
    whitespace character follows. *)
Definition at_token_end (post : str) : Prop :=
  match post with
  | [] => True
  | c :: _ => isspace c = true
  end.

(** [u] is the first match of the pattern in [text]: no match starts
    further left, and the match is as long as it can be. *)
Definition FirstUrl (text u : str) : Prop :=
  exists pre post,
    text = pre ++ u ++ post
    /\ UrlToken u
    /\ at_token_end post
    /\ forall pre' u' post',
        text = pre' ++ u' ++ post' -> UrlToken u' ->
        List.length pre <= List.length pre'.

(** The text of a table as the specification words it: the header row,
    then at most 100 of the rows that follow it, each row as its trimmed
    cells joined by commas, one line per row. *)
Definition row_line (row : list str) : str :=
  join (py ",") (map strip row) ++ newline.

Definition table_text_as_specified (table : Table) : str :=
  match table with
  | [] => []
  | header_row :: data_rows =>
      row_line header_row ++ List.concat (map row_line (firstn 100 data_rows))
  end.

Definition has_cells (cols : list str) : bool :=
  match cols with [] => false | _ => true end.

(** ** Sample requests and environments *)

Definition upload (name text : string) : UploadFile :=
  {| filename := py name;
     content := map byte_of_ascii (list_ascii_of_string text) |}.

(** What a framework can serialise, when it can walk [depth] levels of
    nesting: finite numbers and strings without surrogates. *)
Definition no_surrogate (s : str) : bool :=
  forallb (fun c => negb ((55296 <=? c) && (c <=? 57343))%N) s.

Fixpoint renderable (depth : nat) (body : json) : bool :=
  match body with
  | JNull | JBool _ | JInt _ => true
  | JFloat (Zero _) | JFloat (Finite _ _ _) => true
  | JFloat _ => false
  | JString s => no_surrogate s
  | JArray items =>
      match depth with
      | O => false
      | S depth' => forallb (renderable depth') items
      end
  | JObject fields =>
      match depth with
      | O => false
      | S depth' =>
          forallb (fun kv => no_surrogate (fst kv) && renderable depth' (snd kv))
            fields
      end
  end.

(** Texts standing for [str(e)] in the sample environments. *)
Definition sample_message (e : exception) : str :=
  match e with
  | UnicodeDecodeError _ => py "'utf-8' codec can't decode the bytes"
  | RecursionError => py "maximum recursion depth exceeded"
  | ValueError _ => py "Exceeds the limit for integer string conversion"
  end.

Definition sample_env (key : option str) (page : fetch_result)
  (reply : generate_result) : Env :=
  {| GEMINI_API_KEY := key;
     requests_get := fun _ => page;
     generate_content := fun _ => reply;
     recursion_room := 900;
     int_max_str_digits := 4300;
     str_of_exception := sample_message;
     can_render := renderable 900 |}.

(** [env] with the web replaced by one page, whatever the URL. *)
Definition with_page (env : Env) (page : fetch_result) : Env :=
  {| GEMINI_API_KEY := GEMINI_API_KEY env;
     requests_get := fun _ => page;
     generate_content := generate_content env;
     recursion_room := recursion_room env;
     int_max_str_digits := int_max_str_digits env;
     str_of_exception := str_of_exception env;
     can_render := can_render env |}.

Definition sample_request (questions : string) : Request :=
  {| questions_txt_part := Some (upload "questions.txt" questions);
     image_png_part := None;
     data_csv_part := None |}.

Definition request_without_questions : Request :=
  {| questions_txt_part := None;
     image_png_part := None;
     data_csv_part := Some (upload "data.csv" "a,b") |}.

Definition sample_table : Table :=
  [[py " City "; py "Population"]; []; [py "Oslo"; py " 700000 "]].

Definition header_only_table : Table := [[py "City"; py "Population"]].

(** * Properties *)

(** ** Strings *)

Lemma startswith_spec (p s : str) :
  startswith p s = true <-> exists r, s = p ++ r.
Proof.
  revert s; induction p as [|a p IH]; intros s; simpl.
  - split; [intros _; now exists s | reflexivity].
  - destruct s as [|b s].
    + split; [discriminate | intros [r Hr]; discriminate].
    + rewrite andb_true_iff, N.eqb_eq, IH. split.
      * intros [-> [r ->]]. now exists r.
      * intros [r Hr]. injection Hr as -> ->. split; [reflexivity | now exists r].
Qed.

Lemma contains_spec (w s : str) : contains w s = true <-> Substring w s.
Proof.
  induction s as [|c s IH].
  - simpl. rewrite orb_false_r, startswith_spec. split.
    + intros [r Hr]. now exists [], r.
    + intros [pre [post H]]. destruct pre; [now exists post | discriminate].
  - simpl contains. rewrite orb_true_iff, startswith_spec, IH. split.
    + intros [[r Hr] | [pre [post H]]].
      * now exists [], r.
      * exists (c :: pre), post. simpl. now rewrite H.
    + intros [pre [post H]]. destruct pre as [|c' pre].
      * left. now exists post.
      * right. injection H as _ H. now exists pre, post.
Qed.

Lemma Substring_map (f : N -> N) (w s : str) :
  Substring w (map f s) <-> exists w0, Substring w0 s /\ map f w0 = w.
Proof.
  split.
  - intros [pre [post H]].
    apply map_eq_app in H as [s1 [s2 [-> [_ H]]]].
    apply map_eq_app in H as [w0 [s3 [-> [Hw _]]]].
    exists w0. split; [now exists s1, s3 | exact Hw].
  - intros [w0 [[pre [post ->]] <-]].
    exists (map f pre), (map f post). now rewrite !map_app.
Qed.

Lemma lower_char_letter (c d : N) :
  (97 <= d <= 122)%N -> lower_char c = d <-> same_letter c d.
Proof.
  intros Hd. unfold lower_char, same_letter.
  repeat match goal with
         | |- context [N.leb ?a ?b] => destruct (N.leb_spec a b)
         | |- context [N.eqb ?a ?b] => destruct (N.eqb_spec a b)
         end; simpl; lia.
Qed.

Lemma lower_eq_ignoring_case (w pat : str) :
  Forall (fun d => (97 <= d <= 122)%N) pat ->
  lower w = pat <-> eq_ignoring_case w pat.
Proof.
  intros Hpat. revert w. induction Hpat as [|d pat Hd _ IH]; intros w.
  - destruct w; simpl; split; intros H;
      try constructor; try discriminate; try reflexivity; inversion H.
  - destruct w as [|c w]; simpl.
    + split; intros H; [discriminate | inversion H].
    + split.
      * intros H. injection H as Hc Hw. constructor.
        -- now apply lower_char_letter.
        -- now apply IH.
      * intros H. inversion H; subst. f_equal.
        -- now apply lower_char_letter.
        -- now apply IH.
Qed.

(** ** The URL search *)

Lemma non_space_run_spec (body : str) :
  exists post,
    body = non_space_run body ++ post
    /\ Forall (fun c => isspace c = false) (non_space_run body)
    /\ at_token_end post.
Proof.
  induction body as [|c r [post [H1 [H2 H3]]]]; simpl.
  - exists []. repeat split; constructor.
  - destruct (isspace c) eqn:Hc.
    + exists (c :: r). repeat split; [constructor | exact Hc].
    + exists post. simpl. repeat split.
      * now rewrite <- H1.
      * now constructor.
      * exact H3.
Qed.

Lemma non_space_run_app (tok post : str) :
  tok <> [] -> Forall (fun c => isspace c = false) tok ->
  non_space_run (tok ++ post) <> [].
Proof.
  intros Hne Hall. destruct tok as [|c tok]; [contradiction|].
  inversion Hall; subst. simpl. now rewrite H1.
Qed.

Lemma strip_prefix_spec (p s r : str) :
  strip_prefix p s = Some r <-> s = p ++ r.
Proof.
  unfold strip_prefix. destruct (startswith p s) eqn:H.
  - apply startswith_spec in H as [r' ->].
    rewrite skipn_app, skipn_all, Nat.sub_diag. simpl. split.
    + now intros [= ->].
    + intros H. apply app_inv_head in H. now subst.
  - split; [discriminate|]. intros ->.
    assert (startswith p (p ++ r) = true) by (apply startswith_spec; now exists r).
    congruence.
Qed.

Lemma match_tail_Some (scheme s u : str) :
  match_tail scheme s = Some u ->
  exists tok post,
    s = py "://" ++ tok ++ post /\ u = scheme ++ py "://" ++ tok
    /\ tok <> [] /\ Forall (fun c => isspace c = false) tok
    /\ at_token_end post.
Proof.
  unfold match_tail. destruct (strip_prefix (py "://") s) as [body|] eqn:Hp;
    [|discriminate].
  apply strip_prefix_spec in Hp.
  destruct (non_space_run_spec body) as [post [Hb [Hall Hend]]].
  destruct (non_space_run body) as [|c tok] eqn:Hrun; [discriminate|].
  intros [= <-]. exists (c :: tok), post.
  repeat split; try assumption; [now rewrite <- Hb | discriminate].
Qed.

Lemma match_tail_app (scheme tok post : str) :
  tok <> [] -> Forall (fun c => isspace c = false) tok ->
  match_tail scheme (py "://" ++ tok ++ post) <> None.
Proof.
  intros Hne Hall. unfold match_tail.
  assert (Hp : strip_prefix (py "://") (py "://" ++ tok ++ post)
               = Some (tok ++ post)) by now apply strip_prefix_spec.
  rewrite Hp. pose proof (non_space_run_app tok post Hne Hall) as Hrun.
  destruct (non_space_run (tok ++ post)); [contradiction | discriminate].
Qed.

Lemma match_here_Some (s u : str) :
  match_here s = Some u ->
  exists post, s = u ++ post /\ UrlToken u /\ at_token_end post.
Proof.
  unfold match_here.
  destruct (strip_prefix (py "http") s) as [r|] eqn:Hp; [|discriminate].
  apply strip_prefix_spec in Hp. subst s.
  assert (Hplain : match_tail (py "http") r = Some u ->
                   exists post, py "http" ++ r = u ++ post
                                /\ UrlToken u /\ at_token_end post).
  { intros H. apply match_tail_Some in H
      as [tok [post [-> [-> [Hne [Hall Hend]]]]]].
    exists post. split; [reflexivity | split; [|assumption]].
    exists tok. split; [now left | now split]. }
  destruct r as [|c r']; [exact Hplain|].
  destruct (N.eq_dec c 115) as [->|Hc].
  - destruct (match_tail (py "https") r') as [u'|] eqn:Hs; [|exact Hplain].
    intros [= ->]. apply match_tail_Some in Hs
      as [tok [post [-> [-> [Hne [Hall Hend]]]]]].
    exists post. split; [reflexivity | split; [|assumption]].
    exists tok. split; [now right | now split].
  - destruct c as [|p]; [exact Hplain|].
    do 7 (destruct p as [p|p|]; try exact Hplain); congruence.
Qed.

Lemma match_here_None (s : str) :
  match_here s = None -> forall u post, s = u ++ post -> ~ UrlToken u.
Proof.
  intros Hnone u post -> [tok [[-> | ->] [Hne Hall]]].
  - change ((py "http://" ++ tok) ++ post)
      with (py "http" ++ py "://" ++ tok ++ post) in Hnone.
    unfold match_here in Hnone.
    assert (Hp : strip_prefix (py "http") (py "http" ++ py "://" ++ tok ++ post)
                 = Some (py "://" ++ tok ++ post)) by now apply strip_prefix_spec.
    rewrite Hp in Hnone. change (py "://" ++ tok ++ post)
      with (58%N :: 47%N :: 47%N :: tok ++ post) in Hnone at 1.
    cbv iota in Hnone.
    now apply (match_tail_app (py "http") tok post Hne Hall).
  - change ((py "https://" ++ tok) ++ post)
      with (py "http" ++ 115%N :: py "://" ++ tok ++ post) in Hnone.
    unfold match_here in Hnone.
    assert (Hp : strip_prefix (py "http")
                   (py "http" ++ 115%N :: py "://" ++ tok ++ post)
                 = Some (115%N :: py "://" ++ tok ++ post))
      by now apply strip_prefix_spec.
    rewrite Hp in Hnone.
    pose proof (match_tail_app (py "https") tok post Hne Hall) as Hs.
    destruct (match_tail (py "https") (py "://" ++ tok ++ post));
      [discriminate | contradiction].
Qed.

Lemma url_search_Some (s u : str) : url_search s = Some u -> FirstUrl s u.
Proof.
  revert u. induction s as [|c r IH]; intros u.
  - intros H. vm_compute in H. discriminate.
  - simpl url_search. destruct (match_here (c :: r)) as [u'|] eqn:Hh.
    + intros [= ->]. apply match_here_Some in Hh as [post [Hs [Hu Hend]]].
      exists [], post. simpl. repeat split; try assumption. intros; lia.
    + intros Hr. destruct (IH u Hr) as [pre [post [-> [Hu [Hend Hleft]]]]].
      exists (c :: pre), post. repeat split; try assumption.
      intros pre' u' post' Heq Hu'. destruct pre' as [|c' pre'].
      * exfalso. exact (match_here_None _ Hh u' post' Heq Hu').
      * injection Heq as _ Heq. simpl. apply le_n_S. now apply (Hleft pre' u' post').
Qed.

Lemma url_search_None (s : str) :
  url_search s = None -> forall u, Substring u s -> ~ UrlToken u.
Proof.
  induction s as [|c r IH]; simpl url_search.
  - intros _ u [pre [post Heq]]. destruct pre; [|discriminate].
    exact (match_here_None [] eq_refl u post Heq).
  - destruct (match_here (c :: r)) eqn:Hh; [discriminate|].
    intros Hr u [pre [post Heq]]. destruct pre as [|c' pre].
    + exact (match_here_None _ Hh u post Heq).
    + injection Heq as _ Heq. apply (IH Hr). now exists pre, post.
Qed.

Lemma scrape_trigger_spec (questions_text : str) :
  scrape_trigger questions_text = true <->
  Substring (py "wikipedia.org") questions_text
  \/ exists w, Substring w questions_text /\ eq_ignoring_case w (py "scrape").
Proof.
  unfold scrape_trigger. rewrite orb_true_iff, !contains_spec.
  unfold lower at 1. rewrite Substring_map.
  assert (Hpat : Forall (fun d => (97 <= d <= 122)%N) (py "scrape"))
    by (repeat constructor; cbv; discriminate).
  split; (intros [H | [w [Hw Heq]]]; [now left | right; exists w; split; [exact Hw|]]).
  - now apply lower_eq_ignoring_case.
  - now apply lower_eq_ignoring_case.
Qed.

(** ** The JSON scanner never runs out of fuel *)

Module JsonFuel.
Import Json.

Lemma skip_ws_length (s : str) : List.length (skip_ws s) <= List.length s.
Proof.
  induction s as [|c r IH]; simpl; [lia|].
  destruct (is_ws c); simpl; lia.
Qed.

Lemma expect_length (c : N) (s r : str) :
  expect c s = Some r -> List.length s = S (List.length r).
Proof.
  destruct s as [|c' s]; simpl; [discriminate|].
  destruct (c' =? c)%N; [|discriminate]. now intros [= ->].
Qed.

Lemma scanstring_length (n : nat) :
  forall (s acc text r : str),
    List.length s <= n ->
    scanstring acc s = Some (text, r) -> List.length r < List.length s.
Proof.
  induction n as [|n IH]; intros s acc text r Hn H.
  - destruct s; [discriminate | cbn [List.length] in Hn; lia].
  - destruct s as [|c s]; [discriminate|].
    cbn [scanstring] in H. cbn [List.length] in Hn |- *.
    destruct (c =? 34)%N; [injection H as _ <-; lia|].
    destruct (c =? 92)%N.
    + destruct s as [|e r1]; [discriminate|].
      destruct (e =? 117)%N.
      * destruct r1 as [|h1 [|h2 [|h3 [|h4 r4]]]]; try discriminate.
        destruct (hex4 h1 h2 h3 h4) as [u|]; [|discriminate].
        cbn [List.length] in Hn |- *.
        assert (Hplain : scanstring (u :: acc) r4 = Some (text, r) ->
                         List.length r < S (S (S (S (S (S (List.length r4))))))).
        { intros H'. apply IH in H'; lia. }
        destruct r4 as [|b [|e' [|l1 [|l2 [|l3 [|l4 r10]]]]]];
          try (exact (Hplain H)).
        destruct (if is_high_surrogate u && (b =? 92)%N && (e' =? 117)%N
                  then hex4 l1 l2 l3 l4 else None) as [lo|];
          [|exact (Hplain H)].
        destruct (is_low_surrogate lo); [|exact (Hplain H)].
        cbn [List.length] in Hn |- *.
        apply IH in H; lia.
      * destruct (backslash e); [|discriminate].
        cbn [List.length] in Hn |- *. apply IH in H; lia.
    + destruct (c <? 32)%N; [discriminate|].
      apply IH in H; lia.
Qed.

Lemma digits_length (s ds r : str) :
  digits s = (ds, r) -> List.length s = List.length ds + List.length r.
Proof.
  revert ds r. induction s as [|c s IH]; intros ds r; simpl.
  - now intros [= <- <-].
  - destruct (is_digit c).
    + destruct (digits s) as [ds' r'] eqn:Hd. intros [= <- <-].
      simpl. now rewrite (IH ds' r' eq_refl).
    + now intros [= <- <-].
Qed.

Lemma int_part_length (s ds r : str) :
  int_part s = Some (ds, r) -> List.length r < List.length s.
Proof.
  unfold int_part. destruct s as [|c s]; [discriminate|].
  destruct (c =? 48)%N; [intros [= <- <-]; simpl; lia|].
  destruct (is_digit c) eqn:Hd; [|discriminate].
  intros [= H]. simpl in H. rewrite Hd in H.
  destruct (digits s) as [ds' r'] eqn:Hs. injection H as <- <-.
  apply digits_length in Hs. simpl. lia.
Qed.

Lemma frac_part_length (s f r : str) :
  frac_part s = (f, r) -> List.length r <= List.length s.
Proof.
  unfold frac_part. destruct s as [|c s]; [now intros [= <- <-]|].
  destruct (c =? 46)%N; [|now intros [= <- <-]].
  destruct (digits s) as [[|d ds] r'] eqn:Hd; intros [= <- <-];
    [lia|]. apply digits_length in Hd. simpl in *. lia.
Qed.

Lemma exp_part_length (s : str) (e : option Z) (r : str) :
  exp_part s = (e, r) -> List.length r <= List.length s.
Proof.
  unfold exp_part. destruct s as [|c s]; [now intros [= <- <-]|].
  destruct ((c =? 101) || (c =? 69))%N; [|now intros [= <- <-]].
  destruct (match s with
            | [] => (false, s)
            | sg :: r' =>
                if (sg =? 45)%N then (true, r')
                else if (sg =? 43)%N then (false, r')
                else (false, s)
            end) as [negative r1] eqn:Hsign.
  assert (Hr1 : List.length r1 <= List.length s).
  { destruct s as [|sg r']; [now injection Hsign as <- <-|].
    destruct (sg =? 45)%N; [|destruct (sg =? 43)%N];
      injection Hsign as <- <-; simpl; lia. }
  destruct (digits r1) as [[|d ds] r2] eqn:Hd; intros [= <- <-];
    [lia|]. apply digits_length in Hd. simpl in *. lia.
Qed.

Lemma match_number_length (max_str_digits : nat) (s : str) (v : json) (r : str) :
  match_number max_str_digits s = Found (v, r) ->
  List.length r < List.length s.
Proof.
  unfold match_number.
  destruct (match s with
            | [] => (false, s)
            | c :: r0 => if (c =? 45)%N then (true, r0) else (false, s)
            end) as [negative s1] eqn:Hneg.
  assert (Hs1 : List.length s1 <= List.length s).
  { destruct s as [|c s']; [now injection Hneg as <- <-|].
    destruct (c =? 45)%N; injection Hneg as <- <-; simpl; lia. }
  destruct (int_part s1) as [[ds s2]|] eqn:Hint; [|discriminate].
  apply int_part_length in Hint.
  destruct (frac_part s2) as [f s3] eqn:Hf. apply frac_part_length in Hf.
  destruct (exp_part s3) as [e s4] eqn:He. apply exp_part_length in He.
  destruct f, e; try destruct (too_many_digits _ _);
    try discriminate; intros [= <- <-]; lia.
Qed.

Lemma match_number_fuel (max_str_digits : nat) (s : str) :
  match_number max_str_digits s <> OutOfFuel.
Proof.
  unfold match_number.
  destruct (match s with
            | [] => (false, s)
            | c :: r0 => if (c =? 45)%N then (true, r0) else (false, s)
            end) as [negative s1].
  destruct (int_part s1) as [[ds s2]|]; [|discriminate].
  destruct (frac_part s2) as [f s3]. destruct (exp_part s3) as [e s4].
  destruct f, e; try destruct (too_many_digits _ _); discriminate.
Qed.

Lemma startswith_skipn (p s : str) :
  startswith p s = true -> p <> [] ->
  List.length (skipn (List.length p) s) < List.length s.
Proof.
  intros H Hne. apply startswith_spec in H as [r ->].
  rewrite skipn_app, skipn_all, Nat.sub_diag. cbn [skipn app].
  rewrite length_app. destruct p; [contradiction | simpl; lia].
Qed.

Lemma match_constant_length (s : str) (v : json) (r : str) :
  match_constant s = Some (v, r) -> List.length r < List.length s.
Proof.
  unfold match_constant.
  repeat match goal with
         | |- (if startswith ?p s then _ else _) = _ -> _ =>
             let E := fresh "E" in
             destruct (startswith p s) eqn:E;
             [intros [= <- <-]; apply (startswith_skipn p s E);
              intros Hp; vm_compute in Hp; discriminate|]
         end.
  discriminate.
Qed.

Lemma scan_string_length (s text r : str) :
  scan_string s = Found (text, r) -> List.length r < List.length s.
Proof.
  unfold scan_string. destruct (scanstring [] s) as [[t r']|] eqn:H;
    [|discriminate].
  intros [= <- <-]. now apply (scanstring_length (List.length s)) in H.
Qed.

Lemma scan_string_fuel (s : str) : scan_string s <> OutOfFuel.
Proof. unfold scan_string. now destruct (scanstring [] s). Qed.

(** A scan that finds a value has read at least one character. *)
Lemma found_length (max_str_digits fuel : nat) :
  (forall depth s v r,
      scan_once fuel depth max_str_digits s = Found (v, r) ->
      List.length r < List.length s)
  /\ (forall depth values s v r,
         parse_array fuel depth max_str_digits values s = Found (v, r) ->
         List.length r < List.length s)
  /\ (forall depth pairs s v r,
         parse_object fuel depth max_str_digits pairs s = Found (v, r) ->
         List.length r < List.length s).
Proof.
  induction fuel as [|fuel [IHs [IHa IHo]]];
    [repeat split; intros; discriminate|].
  split; [|split].
  - intros depth s v r H. cbn [scan_once] in H.
    destruct (expect 34 s) as [r0|] eqn:E1.
    { apply expect_length in E1.
      destruct (scan_string r0) as [[text r']| | |] eqn:Hstr; try discriminate.
      injection H as <- <-. apply scan_string_length in Hstr. lia. }
    destruct (expect 123 s) as [r0|] eqn:E2.
    { apply expect_length in E2. pose proof (skip_ws_length r0).
      destruct depth as [|depth']; [discriminate|].
      destruct (expect 125 (skip_ws r0)) as [r'|] eqn:E3.
      - injection H as <- <-. apply expect_length in E3. lia.
      - apply IHo in H. lia. }
    destruct (expect 91 s) as [r0|] eqn:E3.
    { apply expect_length in E3. pose proof (skip_ws_length r0).
      destruct depth as [|depth']; [discriminate|].
      destruct (expect 93 (skip_ws r0)) as [r'|] eqn:E4.
      - injection H as <- <-. apply expect_length in E4. lia.
      - apply IHa in H. lia. }
    destruct (match_constant s) as [[v' r']|] eqn:Hc.
    + injection H as <- <-. now apply match_constant_length in Hc.
    + now apply match_number_length in H.
  - intros depth values s v r H. cbn [parse_array] in H.
    destruct (scan_once fuel depth max_str_digits s) as [[value r0]| | |] eqn:Hv;
      try discriminate.
    apply IHs in Hv. pose proof (skip_ws_length r0).
    destruct (expect 93 (skip_ws r0)) as [r'|] eqn:E1.
    { injection H as <- <-. apply expect_length in E1. lia. }
    destruct (expect 44 (skip_ws r0)) as [r'|] eqn:E2; [|discriminate].
    apply expect_length in E2. pose proof (skip_ws_length r').
    apply IHa in H. lia.
  - intros depth pairs s v r H. cbn [parse_object] in H.
    destruct (expect 34 s) as [r0|] eqn:E1; [|discriminate].
    apply expect_length in E1.
    destruct (scan_string r0) as [[key r1]| | |] eqn:Hstr; try discriminate.
    apply scan_string_length in Hstr. pose proof (skip_ws_length r1).
    destruct (expect 58 (skip_ws r1)) as [r2|] eqn:E2; [|discriminate].
    apply expect_length in E2. pose proof (skip_ws_length r2).
    destruct (scan_once fuel depth max_str_digits (skip_ws r2))
      as [[value r3]| | |] eqn:Hv; try discriminate.
    apply IHs in Hv. pose proof (skip_ws_length r3).
    destruct (expect 125 (skip_ws r3)) as [r'|] eqn:E3.
    { injection H as <- <-. apply expect_length in E3. lia. }
    destruct (expect 44 (skip_ws r3)) as [r'|] eqn:E4; [|discriminate].
    apply expect_length in E4. pose proof (skip_ws_length r').
    apply IHo in H. lia.
Qed.

(** Twice the length of the text, and one or two more, is fuel enough. *)
Lemma enough_fuel (max_str_digits fuel : nat) :
  (forall depth s, 2 * List.length s + 1 <= fuel ->
      scan_once fuel depth max_str_digits s <> OutOfFuel)
  /\ (forall depth values s, 2 * List.length s + 2 <= fuel ->
         parse_array fuel depth max_str_digits values s <> OutOfFuel)
  /\ (forall depth pairs s, 2 * List.length s + 2 <= fuel ->
         parse_object fuel depth max_str_digits pairs s <> OutOfFuel).
Proof.
  induction fuel as [|fuel [IHs [IHa IHo]]];
    [repeat split; intros; lia|].
  destruct (found_length max_str_digits fuel) as [Ls _].
  split; [|split].
  - intros depth s Hf. cbn [scan_once].
    destruct (expect 34 s) as [r0|] eqn:E1.
    { pose proof (scan_string_fuel r0).
      now destruct (scan_string r0) as [[text r']| | |]. }
    destruct (expect 123 s) as [r0|] eqn:E2.
    { apply expect_length in E2. pose proof (skip_ws_length r0).
      destruct depth as [|depth']; [discriminate|].
      destruct (expect 125 (skip_ws r0)); [discriminate|].
      apply IHo. lia. }
    destruct (expect 91 s) as [r0|] eqn:E3.
    { apply expect_length in E3. pose proof (skip_ws_length r0).
      destruct depth as [|depth']; [discriminate|].
      destruct (expect 93 (skip_ws r0)); [discriminate|].
      apply IHa. lia. }
    destruct (match_constant s); [discriminate | apply match_number_fuel].
  - intros depth values s Hf. cbn [parse_array].
    pose proof (IHs depth s ltac:(lia)) as Hv.
    destruct (scan_once fuel depth max_str_digits s) as [[value r0]| | |] eqn:Hs;
      try discriminate; [|contradiction].
    apply Ls in Hs. pose proof (skip_ws_length r0).
    destruct (expect 93 (skip_ws r0)); [discriminate|].
    destruct (expect 44 (skip_ws r0)) as [r'|] eqn:E2; [|discriminate].
    apply expect_length in E2. pose proof (skip_ws_length r').
    apply IHa. lia.
  - intros depth pairs s Hf. cbn [parse_object].
    destruct (expect 34 s) as [r0|] eqn:E1; [|discriminate].
    apply expect_length in E1. pose proof (scan_string_fuel r0) as Hsf.
    destruct (scan_string r0) as [[key r1]| | |] eqn:Hstr;
      try discriminate; [|contradiction].
    apply scan_string_length in Hstr. pose proof (skip_ws_length r1).
    destruct (expect 58 (skip_ws r1)) as [r2|] eqn:E2; [|discriminate].
    apply expect_length in E2. pose proof (skip_ws_length r2).
    pose proof (IHs depth (skip_ws r2) ltac:(lia)) as Hv.
    destruct (scan_once fuel depth max_str_digits (skip_ws r2))
      as [[value r3]| | |] eqn:Hs; try discriminate; [|contradiction].
    apply Ls in Hs. pose proof (skip_ws_length r3).
    destruct (expect 125 (skip_ws r3)); [discriminate|].
    destruct (expect 44 (skip_ws r3)) as [r'|] eqn:E4; [|discriminate].
    apply expect_length in E4. pose proof (skip_ws_length r').
    apply IHo. lia.
Qed.

(** [loads] never stops for lack of fuel. *)
Lemma never_out_of_fuel (depth max_str_digits : nat) (s : str) :
  scan_once (fuel_for s) depth max_str_digits (skip_ws s) <> OutOfFuel.
Proof.
  destruct (enough_fuel max_str_digits (fuel_for s)) as [Hs _].
  apply Hs. pose proof (skip_ws_length s). unfold fuel_for. lia.
Qed.

(** More fuel does not change what a scan has found or refused. *)
Lemma more_fuel (max_str_digits fuel : nat) :
  (forall depth s res fuel',
      scan_once fuel depth max_str_digits s = res -> res <> OutOfFuel ->
      fuel <= fuel' -> scan_once fuel' depth max_str_digits s = res)
  /\ (forall depth values s res fuel',
         parse_array fuel depth max_str_digits values s = res ->
         res <> OutOfFuel ->
         fuel <= fuel' -> parse_array fuel' depth max_str_digits values s = res)
  /\ (forall depth pairs s res fuel',
         parse_object fuel depth max_str_digits pairs s = res ->
         res <> OutOfFuel ->
         fuel <= fuel' -> parse_object fuel' depth max_str_digits pairs s = res).
Proof.
  induction fuel as [|fuel [IHs [IHa IHo]]];
    [repeat split; intros; subst;
     match goal with H : _ <> OutOfFuel |- _ => exfalso; apply H; reflexivity end|].
  split; [|split].
  - intros depth s res [|fuel'] <- Hres Hle; [lia|].
    cbn [scan_once] in Hres |- *.
    destruct (expect 34 s); [reflexivity|].
    destruct (expect 123 s) as [r0|].
    { destruct depth as [|depth']; [reflexivity|].
      destruct (expect 125 (skip_ws r0)); [reflexivity|].
      apply IHo; [reflexivity | exact Hres | lia]. }
    destruct (expect 91 s) as [r0|]; [|reflexivity].
    destruct depth as [|depth']; [reflexivity|].
    destruct (expect 93 (skip_ws r0)); [reflexivity|].
    apply IHa; [reflexivity | exact Hres | lia].
  - intros depth values s res [|fuel'] <- Hres Hle; [lia|].
    cbn [parse_array] in Hres |- *.
    destruct (scan_once fuel depth max_str_digits s) as [[value r0]| | |] eqn:Hs;
      try (rewrite (IHs _ _ _ fuel' Hs) by (try discriminate; lia));
      try reflexivity; [|now contradiction Hres].
    destruct (expect 93 (skip_ws r0)); [reflexivity|].
    destruct (expect 44 (skip_ws r0)); [|reflexivity].
    apply IHa; [reflexivity | exact Hres | lia].
  - intros depth pairs s res [|fuel'] <- Hres Hle; [lia|].
    cbn [parse_object] in Hres |- *.
    destruct (expect 34 s) as [r0|]; [|reflexivity].
    destruct (scan_string r0) as [[key r1]| | |]; try reflexivity.
    destruct (expect 58 (skip_ws r1)) as [r2|]; [|reflexivity].
    destruct (scan_once fuel depth max_str_digits (skip_ws r2))
      as [[value r3]| | |] eqn:Hs;
      try (rewrite (IHs _ _ _ fuel' Hs) by (try discriminate; lia));
      try reflexivity; [|now contradiction Hres].
    destruct (expect 125 (skip_ws r3)); [reflexivity|].
    destruct (expect 44 (skip_ws r3)); [|reflexivity].
    apply IHo; [reflexivity | exact Hres | lia].
Qed.

(** Whatever [scan_once] finds or refuses with some amount of fuel, it
    finds or refuses with the fuel [loads] gives it. *)
Lemma fuel_is_enough (fuel depth max_str_digits : nat) (s : str)
  (res : scan (json * str)) :
  scan_once fuel depth max_str_digits (skip_ws s) = res ->
  res <> OutOfFuel ->
  scan_once (fuel_for s) depth max_str_digits (skip_ws s) = res.
Proof.
  intros H Hres.
  destruct (more_fuel max_str_digits fuel) as [Hup _].
  destruct (more_fuel max_str_digits (fuel_for s)) as [Hup' _].
  pose proof (Hup _ _ _ (Nat.max fuel (fuel_for s)) H Hres (Nat.le_max_l _ _))
    as H1.
  pose proof (Hup' _ _ _ (Nat.max fuel (fuel_for s)) eq_refl
                (never_out_of_fuel depth max_str_digits s) (Nat.le_max_r _ _))
    as H2.
  congruence.
Qed.

(** [loads] gives what [scan_once], with whatever fuel, makes of the
    text: the value it finds, when whitespace only follows it, and the
    exception it fails with. *)
Lemma loads_of_scan (fuel depth max_str_digits : nat) (s : str)
  (v : json) (r : str) :
  startswith [65279%N] s = false ->
  scan_once fuel depth max_str_digits (skip_ws s) = Found (v, r) ->
  skip_ws r = [] ->
  loads depth max_str_digits s = Parsed v.
Proof.
  intros Hbom Hscan Hrest. unfold loads.
  rewrite Hbom, (fuel_is_enough fuel depth max_str_digits s _ Hscan), Hrest;
    [reflexivity | discriminate].
Qed.

Lemma loads_of_failed_scan (fuel depth max_str_digits : nat) (s : str)
  (e : exception) :
  startswith [65279%N] s = false ->
  scan_once fuel depth max_str_digits (skip_ws s) = Failed e ->
  loads depth max_str_digits s = Raised e.
Proof.
  intros Hbom Hscan. unfold loads.
  rewrite Hbom, (fuel_is_enough fuel depth max_str_digits s _ Hscan);
    [reflexivity | discriminate].
Qed.

End JsonFuel.


(** C4.  The scrape step is entered exactly when the question text holds
    [wikipedia.org] or, in any mix of cases, [scrape].  Once entered, it
    fetches the first match of the URL pattern, and fetches nothing when
    no part of the text matches the pattern; when it is not entered,
    nothing is fetched. *)
Theorem scrape_trigger_policy (env : Env) (questions_text : str) :
  (scrape_trigger questions_text = true <->
   Substring (py "wikipedia.org") questions_text
   \/ exists w, Substring w questions_text /\ eq_ignoring_case w (py "scrape"))
  /\ (scrape_trigger questions_text = false ->
      fst (scrape_step env questions_text) = [])
  /\ (scrape_trigger questions_text = true ->
      (exists url, fst (scrape_step env questions_text) = [Fetch url]
                   /\ FirstUrl questions_text url)
      \/ (fst (scrape_step env questions_text) = []
          /\ forall u, Substring u questions_text -> ~ UrlToken u)).
Proof.
  split; [apply scrape_trigger_spec|].
  unfold scrape_step, scrape_url. split; intros Ht; rewrite Ht.
  - reflexivity.
  - destruct (url_search questions_text) as [url|] eqn:Hs.
    + left. exists url. split; [reflexivity | now apply url_search_Some].
    + right. split; [reflexivity | now apply url_search_None].
Qed.

(** ** The table text *)

Lemma fold_left_snoc {A B : Type} (f : A -> B) (l : list A) (init : list B) :
  fold_left (fun acc x => acc ++ [f x]) l init = init ++ map f l.
Proof.
  revert init. induction l as [|x l IH]; intros init; simpl.
  - now rewrite app_nil_r.
  - rewrite IH, <- app_assoc. reflexivity.
Qed.

Lemma fold_left_append {A : Type} (g : A -> str) (l : list A) (init : str) :
  fold_left (fun acc x => acc ++ g x) l init = init ++ List.concat (map g l).
Proof.
  revert init. induction l as [|x l IH]; intros init; simpl.
  - now rewrite app_nil_r.
  - rewrite IH, <- app_assoc. reflexivity.
Qed.

Lemma table_headers_eq (table : Table) :
  table_headers table = map strip (hd [] table).
Proof.
  destruct table as [|header_row rest]; [reflexivity|].
  unfold table_headers. now rewrite fold_left_snoc.
Qed.

Lemma table_rows_from (data_rows : list (list str)) (init : list (list str)) :
  fold_left
    (fun rows row =>
       let cols := fold_left (fun cols td => cols ++ [strip td]) row [] in
       match cols with
       | [] => rows
       | _ => rows ++ [cols]
       end)
    data_rows init
  = init ++ filter has_cells (map (map strip) data_rows).
Proof.
  revert init. induction data_rows as [|row rest IH]; intros init; simpl.
  - now rewrite app_nil_r.
  - rewrite IH, fold_left_snoc. simpl.
    destruct (map strip row); simpl; [reflexivity|].
    now rewrite <- app_assoc.
Qed.

Lemma table_rows_eq (table : Table) :
  table_rows table = filter has_cells (map (map strip) (tl table)).
Proof. unfold table_rows. now rewrite table_rows_from. Qed.

Lemma join_cons_nonempty (sep p : str) (ps : list str) :
  exists rest, join sep (p :: ps) = p ++ rest.
Proof.
  destruct ps as [|q ps]; simpl.
  - exists []. now rewrite app_nil_r.
  - now eexists.
Qed.

Lemma prompt_notes_scraped (c : N) (d : str) (image_name csv_text : option str) :
  exists others,
    prompt_notes (c :: d) image_name csv_text
    = (py "Scraped Data: " ++ c :: d) :: others.
Proof. unfold prompt_notes. eexists. reflexivity. Qed.

Lemma scraped_note_in_prompt (questions_text scraped_data : str)
  (image_name csv_text : option str) :
  scraped_data <> [] ->
  Substring (py "Scraped Data: " ++ scraped_data)
    (full_prompt questions_text scraped_data image_name csv_text).
Proof.
  intros Hne. unfold full_prompt.
  destruct scraped_data as [|c d]; [contradiction|].
  destruct (prompt_notes_scraped c d image_name csv_text) as [others ->].
  set (note := py "Scraped Data: " ++ c :: d).
  change (filter non_empty (note :: others))
    with (if non_empty note then note :: filter non_empty others
          else filter non_empty others).
  replace (non_empty note) with true by reflexivity. cbv iota.
  destruct (join_cons_nonempty newline note (filter non_empty others))
    as [rest ->].
  eexists _, rest. rewrite !app_assoc. reflexivity.
Qed.

(** C3, as amended.  For a page whose [wikitable] has a first row with
    cells and, after it, at least one row with cells, the scraped text is
    the title line naming the URL, then the header line, then one line
    for each of the first 100 rows that have cells; every line is the
    trimmed cell texts joined by commas and ends with a newline, rows
    without cells are left out, and the text is embedded in the prompt
    after [Scraped Data: ]. *)
Theorem scraped_table_text (url : str) (table : Table) :
  let headers := map strip (hd [] table) in
  let rows := filter has_cells (map (map strip) (tl table)) in
  headers <> [] -> rows <> [] ->
  scrape (Fetched (Some table)) url
  = (py "Scraped Data from " ++ url ++ py ":" ++ newline)
      ++ (join (py ",") headers ++ newline)
      ++ List.concat
           (map (fun row => join (py ",") row ++ newline) (firstn 100 rows))
  /\ List.length (firstn 100 rows) <= 100
  /\ forall questions_text image_name csv_text,
      Substring (py "Scraped Data: " ++ scrape (Fetched (Some table)) url)
        (full_prompt questions_text (scrape (Fetched (Some table)) url)
           image_name csv_text).
Proof.
  intros headers rows Hh Hr.
  assert (Heq : scrape (Fetched (Some table)) url
    = (py "Scraped Data from " ++ url ++ py ":" ++ newline)
      ++ (join (py ",") headers ++ newline)
      ++ List.concat
           (map (fun row => join (py ",") row ++ newline) (firstn 100 rows))).
  { simpl scrape. unfold format_table.
    rewrite table_headers_eq, table_rows_eq. fold headers rows.
    destruct headers as [|h hs]; [contradiction|].
    destruct rows as [|r rs]; [contradiction|].
    rewrite fold_left_append, <- !app_assoc. reflexivity. }
  split; [exact Heq|]. split.
  - rewrite length_firstn. lia.
  - intros. apply scraped_note_in_prompt. rewrite Heq.
    intros Hnil. apply app_eq_nil in Hnil as [Hnil _]. discriminate.
Qed.

Lemma scraped_table_text_witness :
  scrape (Fetched (Some sample_table)) (py "http://x.org/t")
  = py "Scraped Data from http://x.org/t:" ++ newline
      ++ py "City,Population" ++ newline
      ++ py "Oslo,700000" ++ newline.
Proof.
  destruct (scraped_table_text (py "http://x.org/t") sample_table) as [H _].
  - vm_compute. discriminate.
  - vm_compute. discriminate.
  - rewrite H. vm_compute. reflexivity.
Defined.

(** C3, as stated, fails: a table with a header row only yields no text
    at all, and the text of a table with rows starts with a title line
    that is neither the header row nor a data row. *)
Lemma scraped_text_not_as_specified :
  scrape (Fetched (Some header_only_table)) (py "http://x.org/t") = []
  /\ table_text_as_specified header_only_table
     = py "City,Population" ++ newline
  /\ scrape (Fetched (Some sample_table)) (py "http://x.org/t")
     <> table_text_as_specified sample_table.
Proof.
  split; [reflexivity|]. split; [reflexivity|].
  vm_compute. discriminate.
Qed.

(** C10.  When the table gives no header cell or no row with cells, the
    scrape result is empty, the prompt has no note that starts with
    [Scraped Data: ], and the handler does exactly what it does when the
    page has no [wikitable]: the same calls, the same prompt, the same
    result. *)
Theorem empty_table_leaves_no_trace (env : Env)
  (table : Table) (url : str) (questions_txt : UploadFile)
  (image_png data_csv : option UploadFile) :
  table_headers table = [] \/ table_rows table = [] ->
  scrape (Fetched (Some table)) url = []
  /\ (forall image_name csv_text,
        Forall (fun note => startswith (py "Scraped Data: ") note = false)
          (prompt_notes (scrape (Fetched (Some table)) url) image_name csv_text))
  /\ process_questions (with_page env (Fetched (Some table)))
       questions_txt image_png data_csv
     = process_questions (with_page env (Fetched None))
         questions_txt image_png data_csv.
Proof.
  intros Hempty.
  assert (Hs : forall u, scrape (Fetched (Some table)) u = []).
  { intros u. simpl. unfold format_table.
    destruct Hempty as [-> | ->]; [reflexivity|].
    now destruct (table_headers table). }
  split; [apply Hs|]. split.
  - intros image_name csv_text. rewrite Hs. unfold prompt_notes.
    destruct image_name, csv_text; repeat constructor.
  - unfold process_questions.
    change (get_api_key (with_page env (Fetched None)))
      with (get_api_key (with_page env (Fetched (Some table)))).
    destruct (get_api_key _) as [t [code detail | k]]; cbn [bind];
      [reflexivity|].
    destruct (read_text _ _) as [t1 [c1 d1 | text]]; cbn [bind];
      [reflexivity|].
    unfold scrape_step. destruct (scrape_url text) as [u|]; [|reflexivity].
    cbn [bind emit ret requests_get with_page]. rewrite Hs. reflexivity.
Qed.

Lemma empty_table_leaves_no_trace_witness :
  scrape (Fetched (Some header_only_table)) (py "http://x.org/t") = [].
Proof.
  apply (empty_table_leaves_no_trace
           (sample_env (Some (py "k")) (Fetched None) (Generated (py "[]")))
           header_only_table (py "http://x.org/t")
           (upload "questions.txt" "scrape http://x.org/t") None None).
  right. reflexivity.
Defined.

(** ** The handler *)

Lemma handle_reply_trace (env : Env) (reply : generate_result) :
  fst (handle_reply env reply) = [].
Proof.
  destruct reply as [msg | [|c text]]; try reflexivity.
  cbn [handle_reply]. now destruct (normalize env (c :: text)).
Qed.

Lemma process_questions_after_scrape (env : Env) (questions_txt : UploadFile)
  (image_png data_csv : option UploadFile) (key questions_text url : str) :
  GEMINI_API_KEY env = Some key -> key <> [] ->
  decode (content questions_txt) = Some questions_text ->
  scrape_url questions_text = Some url ->
  process_questions env questions_txt image_png data_csv
  = let (t, r) := answer env questions_text
                    (scrape (requests_get env url) url) image_png data_csv in
    (Fetch url :: t, r).
Proof.
  intros Hkey Hne Hdec Hurl. unfold process_questions, get_api_key.
  rewrite Hkey. destruct key as [|c key]; [contradiction|].
  cbn [bind ret]. unfold read_text. rewrite Hdec. cbn [bind ret].
  unfold scrape_step. rewrite Hurl. cbn [bind emit ret app].
  now destruct (answer _ _ _ _ _).
Qed.

(** The model's answer decides the result of every request that reaches
    the model. *)
Lemma generate_decides (env : Env) (questions_txt : UploadFile)
  (image_png data_csv : option UploadFile)
  (t : list event) (r : result json) (prompt : str) :
  process_questions env questions_txt image_png data_csv = (t, r) ->
  In (Generate prompt) t ->
  r = snd (handle_reply env (generate_content env prompt)).
Proof.
  unfold process_questions, get_api_key.
  destruct (GEMINI_API_KEY env) as [[|c key]|]; cbn [bind ret raise];
    try (intros [= <- <-] []).
  unfold read_text at 1.
  destruct (decode (content questions_txt)) as [questions_text|];
    cbn [bind ret raise]; [|intros [= <- <-] []].
  assert (Hanswer : forall scraped_data t' r',
    answer env questions_text scraped_data image_png data_csv = (t', r') ->
    In (Generate prompt) t' ->
    r' = snd (handle_reply env (generate_content env prompt))).
  { intros scraped_data t' r'. unfold answer, read_csv, read_text.
    destruct data_csv as [part|]; [destruct (decode (content part))|];
      cbn [bind ret raise]; try (intros [= <- <-] []);
      unfold call_model; cbn [bind emit app];
      set (p := full_prompt _ _ _ _);
      pose proof (handle_reply_trace env (generate_content env p)) as Ht;
      destruct (handle_reply env (generate_content env p)) as [t0 r0] eqn:Hg;
      simpl in Ht; subst t0;
      intros [= <- <-] [[= <-] | []]; now rewrite Hg. }
  unfold scrape_step. destruct (scrape_url questions_text) as [url|];
    cbn [bind emit ret app].
  - destruct (answer _ _ _ _ _) as [t' r'] eqn:Ha. intros [= <- <-] Hin.
    destruct Hin as [Hin | Hin]; [discriminate|].
    exact (Hanswer _ _ _ Ha Hin).
  - destruct (answer _ _ _ _ _) as [t' r'] eqn:Ha. intros [= <- <-] Hin.
    exact (Hanswer _ _ _ Ha Hin).
Qed.

Lemma endpoint_generate (env : Env) (req : Request)
  (t : list event) (o : outcome) (prompt : str) :
  endpoint env req = (t, o) ->
  In (Generate prompt) t ->
  o = match snd (handle_reply env (generate_content env prompt)) with
      | Raise code detail => HTTPException code detail
      | Ret body =>
          if can_render env body then Returned body else InternalServerError
      end.
Proof.
  unfold endpoint. destruct (questions_txt_part req) as [questions_txt|];
    [|intros [= <- <-] []].
  destruct (process_questions _ _ _ _) as [t' r] eqn:Hp.
  intros Heq Hin.
  assert (Ht : t' = t) by (destruct r; now injection Heq).
  subst t'. rewrite (generate_decides _ _ _ _ _ _ _ Hp Hin) in Heq.
  destruct (snd _); now injection Heq.
Qed.

(** C5, as amended.  When the fetch of the scrape step fails, the
    handler goes on with what follows the scrape step, with the error
    note in the place of the table text: the request ends as that
    continuation ends, and the failure of the scrape is by itself no
    error response.  When the CSV part is absent or decodable, the model
    is called with a prompt that embeds the note, and what the handler
    makes of the model's reply is the result. *)
Theorem scrape_failure_is_not_fatal (env : Env) (questions_txt : UploadFile)
  (image_png data_csv : option UploadFile)
  (key questions_text url msg : str) :
  GEMINI_API_KEY env = Some key -> key <> [] ->
  decode (content questions_txt) = Some questions_text ->
  scrape_url questions_text = Some url ->
  requests_get env url = FetchRaised msg ->
  let note := py "Error scraping data: " ++ msg in
  process_questions env questions_txt image_png data_csv
  = (let (t, r) := answer env questions_text note image_png data_csv in
     (Fetch url :: t, r))
  /\ forall csv_text,
      read_csv env data_csv = ret csv_text ->
      let prompt := full_prompt questions_text note
                      (option_map filename image_png) csv_text in
      Substring (py "Scraped Data: " ++ note) prompt
      /\ process_questions env questions_txt image_png data_csv
         = ([Fetch url; Generate prompt],
            snd (handle_reply env (generate_content env prompt)))
      /\ forall text body,
          generate_content env prompt = Generated text ->
          text <> [] ->
          normalize env text = inr body ->
          snd (process_questions env questions_txt image_png data_csv)
          = Ret body.
Proof.
  intros Hkey Hne Hdec Hurl Hfetch note.
  assert (Hp : process_questions env questions_txt image_png data_csv
               = (let (t, r) := answer env questions_text note image_png data_csv in
                  (Fetch url :: t, r))).
  { rewrite (process_questions_after_scrape _ _ _ _ _ _ _ Hkey Hne Hdec Hurl).
    now rewrite Hfetch. }
  split; [exact Hp|]. intros csv_text Hcsv prompt.
  assert (Hcall : process_questions env questions_txt image_png data_csv
                  = ([Fetch url; Generate prompt],
                     snd (handle_reply env (generate_content env prompt)))).
  { rewrite Hp. unfold answer. rewrite Hcsv. cbn [bind ret].
    unfold call_model. cbn [bind emit app]. fold prompt.
    pose proof (handle_reply_trace env (generate_content env prompt)) as Ht.
    destruct (handle_reply _ _) as [t0 r0]. simpl in Ht. now subst t0. }
  split; [|split; [exact Hcall|]].
  - apply scraped_note_in_prompt. discriminate.
  - intros text body Hgen Htext Hnorm. rewrite Hcall, Hgen.
    destruct text; [contradiction|]. cbn [handle_reply]. now rewrite Hnorm.
Qed.

Lemma scrape_failure_is_not_fatal_witness :
  snd (process_questions
         (sample_env (Some (py "key")) (FetchRaised (py "timed out"))
            (Generated (py "[1]")))
         (upload "questions.txt" "scrape http://x.org/t") None None)
  = Ret (JArray [JInt 1]).
Proof.
  pose proof (scrape_failure_is_not_fatal
                (sample_env (Some (py "key")) (FetchRaised (py "timed out"))
                   (Generated (py "[1]")))
                (upload "questions.txt" "scrape http://x.org/t") None None
                (py "key") (py "scrape http://x.org/t") (py "http://x.org/t")
                (py "timed out")) as H.
  destruct H as [_ H].
  - reflexivity.
  - discriminate.
  - reflexivity.
  - reflexivity.
  - reflexivity.
  - destruct (H None eq_refl) as [_ [_ Hret]].
    apply (Hret (py "[1]")); [reflexivity | discriminate | reflexivity].
Defined.

(** C5, as stated, fails: when the fetch fails and [data.csv] is not
    UTF-8, the request does not reach the model; it ends with status 400
    after the fetch. *)
Lemma scrape_failure_may_stop_before_model :
  exists detail,
    process_questions
      (sample_env (Some (py "key")) (FetchRaised (py "timed out"))
         (Generated (py "[1]")))
      (upload "questions.txt" "scrape http://x.org/t") None
      (Some {| filename := py "data.csv"; content := [Byte.xff] |})
    = ([Fetch (py "http://x.org/t")], Raise 400 detail).
Proof. eexists. vm_compute. reflexivity. Qed.

(** C6, as amended.  A body without the [questions.txt] part is answered
    by the validation error of the framework, status 422; the handler is
    not called, so nothing is fetched and the model is not called. *)
Theorem missing_questions_is_422 (env : Env) (req : Request) :
  questions_txt_part req = None ->
  endpoint env req = ([], RequestValidationError)
  /\ status (snd (endpoint env req)) = 422%Z.
Proof. intros H. unfold endpoint. rewrite H. split; reflexivity. Qed.

Lemma missing_questions_is_422_witness :
  status (snd (endpoint (sample_env (Some (py "key")) (Fetched None)
                           (Generated (py "[1]")))
                 request_without_questions)) = 422%Z.
Proof.
  apply (missing_questions_is_422
           (sample_env (Some (py "key")) (Fetched None) (Generated (py "[1]")))
           request_without_questions).
  reflexivity.
Defined.

(** C6, as stated, fails: the status of the answer to a body without
    [questions.txt] is not 400. *)
Lemma missing_questions_is_not_400 :
  status (snd (endpoint (sample_env (Some (py "key")) (Fetched None)
                           (Generated (py "[1]")))
                 request_without_questions)) <> 400%Z.
Proof. vm_compute. discriminate. Qed.

(** The handler's own 400: a [questions.txt] part that is not UTF-8. *)
Lemma undecodable_questions_is_400 (env : Env) (questions_txt : UploadFile)
  (image_png data_csv : option UploadFile) (key : str) :
  GEMINI_API_KEY env = Some key -> key <> [] ->
  decode (content questions_txt) = None ->
  process_questions env questions_txt image_png data_csv
  = ([], Raise 400 (py "Error reading questions.txt: "
                      ++ str_of_exception env
                           (UnicodeDecodeError (content questions_txt)))).
Proof.
  intros Hkey Hne Hdec. unfold process_questions, get_api_key.
  rewrite Hkey. destruct key; [contradiction|].
  cbn [bind ret]. unfold read_text. now rewrite Hdec.
Qed.

(** C7, as amended.  With the API key unset or empty, every request that
    carries the [questions.txt] part fails with status 500, whatever its
    parts hold, before anything is decoded, fetched or sent to the
    model. *)
Theorem missing_api_key_is_500 (env : Env) (req : Request)
  (questions_txt : UploadFile) :
  GEMINI_API_KEY env = None \/ GEMINI_API_KEY env = Some [] ->
  questions_txt_part req = Some questions_txt ->
  endpoint env req
  = ([], HTTPException 500 (py "GEMINI_API_KEY environment variable not set"))
  /\ status (snd (endpoint env req)) = 500%Z.
Proof.
  intros Hkey Hq. unfold endpoint, process_questions, get_api_key.
  rewrite Hq. destruct Hkey as [-> | ->]; split; reflexivity.
Qed.

Lemma missing_api_key_is_500_witness :
  status (snd (endpoint (sample_env None (Fetched None) (Generated (py "[1]")))
                 (sample_request "scrape http://x.org/t"))) = 500%Z.
Proof.
  apply (missing_api_key_is_500
           (sample_env None (Fetched None) (Generated (py "[1]")))
           (sample_request "scrape http://x.org/t")
           (upload "questions.txt" "scrape http://x.org/t")).
  - left. reflexivity.
  - reflexivity.
Defined.

(** C7, as stated, fails: with the API key unset, a body without
    [questions.txt] is answered 422, not 500. *)
Lemma missing_api_key_is_not_always_500 :
  status (snd (endpoint (sample_env None (Fetched None) (Generated (py "[1]")))
                 request_without_questions)) <> 500%Z.
Proof. vm_compute. discriminate. Qed.

(** C8.  Whenever the model was called and the call raised or gave an
    empty text, the endpoint answers with an [HTTPException] of status
    500; no body is returned. *)
Theorem model_failure_is_500 (env : Env) (req : Request)
  (t : list event) (o : outcome) (prompt : str) :
  endpoint env req = (t, o) ->
  In (Generate prompt) t ->
  (exists msg, generate_content env prompt = GenerateRaised msg)
  \/ generate_content env prompt = Generated [] ->
  status o = 500%Z /\ exists detail, o = HTTPException 500 detail.
Proof.
  intros He Hin Hfail. rewrite (endpoint_generate _ _ _ _ _ He Hin).
  destruct Hfail as [[msg ->] | ->]; simpl; split; try reflexivity; now eexists.
Qed.

Lemma model_failure_is_500_witness :
  status (snd (endpoint (sample_env (Some (py "key")) (Fetched None) (Generated []))
                 (sample_request "What is the mean?"))) = 500%Z.
Proof.
  set (env := sample_env (Some (py "key")) (Fetched None) (Generated [])).
  set (req := sample_request "What is the mean?").
  destruct (endpoint env req) as [t o] eqn:He.
  apply (model_failure_is_500 env req t o
           (full_prompt (py "What is the mean?") [] None None) He).
  - vm_compute in He. injection He as <- _. left. reflexivity.
  - right. reflexivity.
Defined.

(** C9.  Two requests that differ only in the bytes of [image.png] get
    the same treatment: the same calls, so the same prompt, and the same
    answer.  Of the image only the file name reaches the prompt. *)
Theorem image_bytes_do_not_matter (env : Env)
  (questions_txt data_csv : option UploadFile) (name : str)
  (bytes1 bytes2 : bytes) :
  endpoint env {| questions_txt_part := questions_txt;
                  image_png_part := Some {| filename := name; content := bytes1 |};
                  data_csv_part := data_csv |}
  = endpoint env {| questions_txt_part := questions_txt;
                    image_png_part := Some {| filename := name; content := bytes2 |};
                    data_csv_part := data_csv |}.
Proof. reflexivity. Qed.

(** ** The normalisation of the reply *)

Lemma normalize_parsed (env : Env) (text : str) (value : json) :
  Json.loads (recursion_room env) (int_max_str_digits env) (clean text)
  = Json.Parsed value ->
  normalize env text = inr value.
Proof. intros H. unfold normalize. now rewrite H. Qed.


Lemma normalize_raised (env : Env) (text : str) (e : exception) :
  Json.loads (recursion_room env) (int_max_str_digits env) (clean text)
  = Json.Raised e ->
  normalize env text = inl e.
Proof. intros H. unfold normalize. now rewrite H. Qed.

Lemma replace_absent (old new s : str) :
  contains old s = false -> replace old new s = s.
Proof.
  unfold replace. induction s as [|c r IH]; [reflexivity|].
  cbn [contains replace_from]. intros H. apply orb_false_iff in H as [Hs Hr].
  rewrite Hs. now rewrite (IH Hr).
Qed.

Lemma lstrip_idempotent (s : str) : lstrip (lstrip s) = lstrip s.
Proof.
  induction s as [|c r IH]; [reflexivity|]. simpl.
  destruct (isspace c) eqn:Hc; [exact IH|]. simpl. now rewrite Hc.
Qed.

Lemma lstrip_head (s : str) (c : N) (r : str) :
  lstrip s = c :: r -> isspace c = false.
Proof.
  induction s as [|c' r' IH]; [discriminate|]. simpl.
  destruct (isspace c') eqn:Hc; [exact IH|]. now intros [= <- _].
Qed.

Lemma lstrip_snoc (l : str) (c : N) :
  isspace c = false -> lstrip (l ++ [c]) = lstrip l ++ [c].
Proof.
  intros Hc. induction l as [|a l IH]; simpl; [now rewrite Hc|].
  now destruct (isspace a).
Qed.

Lemma rstrip_cons (c : N) (s : str) :
  isspace c = false -> rstrip (c :: s) = c :: rstrip s.
Proof.
  intros Hc. unfold rstrip. simpl rev.
  now rewrite (lstrip_snoc _ c Hc), rev_app_distr.
Qed.

Lemma rstrip_idempotent (s : str) : rstrip (rstrip s) = rstrip s.
Proof. unfold rstrip. now rewrite rev_involutive, lstrip_idempotent. Qed.

Lemma strip_idempotent (s : str) : strip (strip s) = strip s.
Proof.
  unfold strip. destruct (lstrip s) as [|c r] eqn:Hl; [reflexivity|].
  pose proof (lstrip_head s c r Hl) as Hc.
  rewrite (rstrip_cons c r Hc). simpl lstrip. rewrite Hc.
  rewrite <- (rstrip_cons c r Hc). apply rstrip_idempotent.
Qed.

(** Where the clean-up is harmless: a reply that, once stripped, holds
    no newline and no two spaces in a row is parsed as it stands. *)
Lemma clean_tidy_text (text : str) :
  contains newline (strip text) = false ->
  contains (py "  ") (strip text) = false ->
  clean text = strip text.
Proof.
  intros Hnl Hsp. unfold clean.
  rewrite (replace_absent newline [] (strip text) Hnl).
  rewrite (replace_absent (py "  ") (py " ") (strip text) Hsp).
  apply strip_idempotent.
Qed.

Lemma normalize_tidy_text (env : Env) (text : str) (value : json) :
  contains newline (strip text) = false ->
  contains (py "  ") (strip text) = false ->
  Json.loads (recursion_room env) (int_max_str_digits env) (strip text)
  = Json.Parsed value ->
  normalize env text = inr value.
Proof.
  intros Hnl Hsp Hv. apply normalize_parsed.
  now rewrite (clean_tidy_text text Hnl Hsp).
Qed.

(** C1, at the reply [["a  b"]], a JSON array of one string with two
    spaces in it.  The reply parses, before and after the clean-up, but
    the clean-up has replaced the two spaces inside the string by one:
    the endpoint returns the array of the string [a b], not the value
    the reply denotes. *)
Theorem cleanup_alters_string_contents :
  let reply := Json.jpy "['a  b']" in
  let env := sample_env (Some (py "key")) (Fetched None) (Generated reply) in
  Json.loads (recursion_room env) (int_max_str_digits env) reply
  = Json.Parsed (JArray [JString (py "a  b")])
  /\ Json.loads (recursion_room env) (int_max_str_digits env) (clean reply)
     = Json.Parsed (JArray [JString (py "a b")])
  /\ snd (endpoint env (sample_request "Name the pair."))
     = Returned (JArray [JString (py "a b")])
  /\ JArray [JString (py "a b")] <> JArray [JString (py "a  b")].
Proof.
  repeat split; try (vm_compute; reflexivity). vm_compute. discriminate.
Qed.




Lemma scrape_trigger_policy_witness :
  fst (scrape_step (sample_env (Some (py "key")) (Fetched None) (Generated []))
         (py "Scrape the table at https://en.wikipedia.org/wiki/Oslo please"))
  = [Fetch (py "https://en.wikipedia.org/wiki/Oslo")].
Proof.
  destruct (scrape_trigger_policy
              (sample_env (Some (py "key")) (Fetched None) (Generated []))
              (py "Scrape the table at https://en.wikipedia.org/wiki/Oslo please"))
    as [_ [_ H]].
  destruct (H eq_refl) as [[url [Ht _]] | [Ht _]]; vm_compute; reflexivity.
Defined.

(** * Further properties of the handler *)

(** ** The course of a request *)

Lemma answer_cases (env : Env) (questions_text scraped_data : str)
  (image_png data_csv : option UploadFile) :
  (exists part,
      data_csv = Some part /\ decode (content part) = None
      /\ answer env questions_text scraped_data image_png data_csv
         = ([], Raise 400 (py "Error reading data.csv: "
                             ++ str_of_exception env
                                  (UnicodeDecodeError (content part)))))
  \/ (exists csv_text,
         read_csv env data_csv = ret csv_text
         /\ answer env questions_text scraped_data image_png data_csv
            = ([Generate (full_prompt questions_text scraped_data
                            (option_map filename image_png) csv_text)],
               snd (handle_reply env
                      (generate_content env
                         (full_prompt questions_text scraped_data
                            (option_map filename image_png) csv_text))))).
Proof.
  unfold answer.
  assert (Hcall : forall csv_text,
    call_model env (full_prompt questions_text scraped_data
                      (option_map filename image_png) csv_text)
    = ([Generate (full_prompt questions_text scraped_data
                    (option_map filename image_png) csv_text)],
       snd (handle_reply env
              (generate_content env
                 (full_prompt questions_text scraped_data
                    (option_map filename image_png) csv_text))))).
  { intros csv_text. unfold call_model. cbn [bind emit app].
    set (g := generate_content env _).
    pose proof (handle_reply_trace env g) as Ht.
    destruct (handle_reply env g) as [t0 r0]. simpl in Ht. now subst t0. }
  destruct data_csv as [part|].
  - unfold read_csv, read_text.
    destruct (decode (content part)) as [csv_text|] eqn:Hd.
    + right. exists (Some csv_text). split; [reflexivity|].
      cbn [bind ret]. rewrite (Hcall (Some csv_text)). reflexivity.
    + left. exists part. repeat split; assumption.
  - right. exists None. split; [reflexivity|].
    cbn [read_csv bind ret]. rewrite (Hcall None). reflexivity.
Qed.

Lemma trace_cases (env : Env) (questions_txt : UploadFile)
  (image_png data_csv : option UploadFile) (t : list event) (r : result json) :
  process_questions env questions_txt image_png data_csv = (t, r) ->
  (t = [] /\ exists code detail, r = Raise code detail)
  \/ (exists url code detail, t = [Fetch url] /\ r = Raise code detail)
  \/ (exists prompt, t = [Generate prompt])
  \/ (exists url prompt, t = [Fetch url; Generate prompt]).
Proof.
  unfold process_questions, get_api_key.
  destruct (GEMINI_API_KEY env) as [[|c key]|]; cbn [bind ret raise];
    try (intros [= <- <-]; left; split; [reflexivity | now eexists _, _]).
  unfold read_text at 1.
  destruct (decode (content questions_txt)) as [questions_text|];
    cbn [bind ret raise];
    [|intros [= <- <-]; left; split; [reflexivity | now eexists _, _]].
  unfold scrape_step.
  destruct (scrape_url questions_text) as [url|]; cbn [bind emit ret app].
  - destruct (answer_cases env questions_text
                (scrape (requests_get env url) url) image_png data_csv)
      as [[part [_ [_ ->]]] | [csv_text [_ ->]]]; intros [= <- <-].
    + right; left. now eexists _, _, _.
    + right; right; right. now eexists _, _.
  - destruct (answer_cases env questions_text [] image_png data_csv)
      as [[part [_ [_ ->]]] | [csv_text [_ ->]]]; intros [= <- <-].
    + left. split; [reflexivity | now eexists _, _].
    + right; right; left. now eexists.
Qed.

(** X1.  A request makes at most one fetch and at most one call of the
    model, and the fetch comes first. *)
Theorem trace_shape (env : Env) (questions_txt : UploadFile)
  (image_png data_csv : option UploadFile) :
  let t := fst (process_questions env questions_txt image_png data_csv) in
  t = [] \/ (exists url, t = [Fetch url]) \/ (exists prompt, t = [Generate prompt])
  \/ (exists url prompt, t = [Fetch url; Generate prompt]).
Proof.
  intros t. subst t.
  destruct (process_questions env questions_txt image_png data_csv)
    as [t r] eqn:Hp. cbn [fst].
  destruct (trace_cases _ _ _ _ _ _ Hp)
    as [[-> _] | [[url [code [detail [-> _]]]] | [[prompt ->] | [url [prompt ->]]]]].
  - now left.
  - right; left. now exists url.
  - right; right; left. now exists prompt.
  - right; right; right. now exists url, prompt.
Qed.

(** X2.  The handler raises with status 400 or 500 only. *)
Theorem raised_status (env : Env) (questions_txt : UploadFile)
  (image_png data_csv : option UploadFile) (code : Z) (detail : str) :
  snd (process_questions env questions_txt image_png data_csv)
  = Raise code detail ->
  code = 400%Z \/ code = 500%Z.
Proof.
  unfold process_questions, get_api_key.
  destruct (GEMINI_API_KEY env) as [[|c key]|]; cbn [bind ret raise snd];
    try (intros [= <- _]; now right).
  unfold read_text at 1.
  destruct (decode (content questions_txt)) as [questions_text|];
    cbn [bind ret raise snd]; [|intros [= <- _]; now left].
  assert (Hanswer : forall scraped_data,
    snd (answer env questions_text scraped_data image_png data_csv)
    = Raise code detail -> code = 400%Z \/ code = 500%Z).
  { intros scraped_data.
    destruct (answer_cases env questions_text scraped_data image_png data_csv)
      as [[part [_ [_ ->]]] | [csv_text [_ ->]]]; cbn [snd].
    - intros [= <- _]; now left.
    - destruct (generate_content env _) as [msg | [|c' text]];
        cbn [handle_reply raise snd];
        try (intros [= <- _]; now right).
      destruct (normalize env (c' :: text)); cbn [raise ret snd];
        [intros [= <- _]; now right | discriminate]. }
  unfold scrape_step.
  destruct (scrape_url questions_text) as [url|]; cbn [bind emit ret app].
  - specialize (Hanswer (scrape (requests_get env url) url)).
    destruct (answer _ _ _ _ _) as [t r]. exact Hanswer.
  - specialize (Hanswer []).
    destruct (answer _ _ _ _ _) as [t r]. exact Hanswer.
Qed.

Lemma raised_status_witness :
  500%Z = 400%Z \/ 500%Z = 500%Z.
Proof.
  apply (raised_status
           (sample_env None (Fetched None) (Generated (py "[1]")))
           (upload "questions.txt" "What is the mean?") None None
           500 (py "GEMINI_API_KEY environment variable not set")).
  reflexivity.
Defined.

(** X3.  The handler returns a body exactly when the model was called,
    gave a non-empty text, and [json.loads] raised nothing on the
    cleaned text but, at most, [JSONDecodeError]; the body is then the
    parsed value or the wrapper. *)
Theorem returns_iff_model_answers (env : Env) (questions_txt : UploadFile)
  (image_png data_csv : option UploadFile) (body : json) :
  snd (process_questions env questions_txt image_png data_csv) = Ret body
  <-> exists prompt text,
        In (Generate prompt)
          (fst (process_questions env questions_txt image_png data_csv))
        /\ generate_content env prompt = Generated text
        /\ text <> []
        /\ normalize env text = inr body.
Proof.
  split.
  - destruct (process_questions env questions_txt image_png data_csv)
      as [t r] eqn:Hp. cbn [fst snd]. intros ->.
    assert (Hgen : exists prompt, In (Generate prompt) t).
    { destruct (trace_cases _ _ _ _ _ _ Hp)
        as [[_ [code [detail Hr]]]
           | [[url [code [detail [_ Hr]]]]
             | [[prompt ->] | [url [prompt ->]]]]]; try discriminate.
      - exists prompt. now left.
      - exists prompt. right. now left. }
    destruct Hgen as [prompt Hin]. exists prompt.
    pose proof (generate_decides _ _ _ _ _ _ _ Hp Hin) as Hr.
    destruct (generate_content env prompt) as [msg | [|c text]];
      try discriminate.
    exists (c :: text). repeat split; try assumption; try discriminate.
    cbn [handle_reply] in Hr.
    destruct (normalize env (c :: text)) as [e | body']; [discriminate|].
    now injection Hr as ->.
  - intros [prompt [text [Hin [Hgen [Hne Hnorm]]]]].
    destruct (process_questions env questions_txt image_png data_csv)
      as [t r] eqn:Hp. cbn [fst snd] in *.
    rewrite (generate_decides _ _ _ _ _ _ _ Hp Hin), Hgen.
    destruct text; [contradiction|]. cbn [handle_reply]. now rewrite Hnorm.
Qed.

(** X4.  A [questions.txt] that is not UTF-8 ends the request with
    status 400 before anything is fetched or sent to the model. *)
Theorem undecodable_questions_stops (env : Env) (questions_txt : UploadFile)
  (image_png data_csv : option UploadFile) (key : str) :
  GEMINI_API_KEY env = Some key -> key <> [] ->
  decode (content questions_txt) = None ->
  fst (process_questions env questions_txt image_png data_csv) = []
  /\ exists detail,
      snd (process_questions env questions_txt image_png data_csv)
      = Raise 400 detail.
Proof.
  intros Hkey Hne Hdec.
  rewrite (undecodable_questions_is_400 env questions_txt image_png data_csv
             key Hkey Hne Hdec).
  split; [reflexivity | now eexists].
Qed.

Lemma undecodable_questions_stops_witness :
  fst (process_questions
         (sample_env (Some (py "key")) (Fetched None) (Generated (py "[1]")))
         {| filename := py "questions.txt"; content := [Byte.xff] |}
         None None) = [].
Proof.
  apply (undecodable_questions_stops
           (sample_env (Some (py "key")) (Fetched None) (Generated (py "[1]")))
           {| filename := py "questions.txt"; content := [Byte.xff] |}
           None None (py "key")).
  - reflexivity.
  - discriminate.
  - reflexivity.
Defined.



(** ** The scraped table: the cap *)

(** X6.  Once a table has 100 rows with cells, the rows that follow them
    do not reach the scraped text. *)
Theorem rows_beyond_cap_dropped (url : str) (header_row : list str)
  (data_rows more_rows : list (list str)) :
  100 <= List.length (filter has_cells (map (map strip) data_rows)) ->
  format_table url (header_row :: data_rows ++ more_rows)
  = format_table url (header_row :: data_rows).
Proof.
  intros Hlen. unfold format_table.
  rewrite !table_headers_eq, !table_rows_eq. cbn [hd tl].
  rewrite map_app, filter_app.
  set (rows := filter has_cells (map (map strip) data_rows)) in *.
  set (more := filter has_cells (map (map strip) more_rows)).
  assert (Hfirst : firstn 100 (rows ++ more) = firstn 100 rows).
  { rewrite firstn_app.
    replace (100 - List.length rows) with 0 by lia.
    cbn [firstn]. apply app_nil_r. }
  rewrite Hfirst.
  destruct rows as [|row rows']; [cbn [List.length] in Hlen; lia|].
  reflexivity.
Qed.

Lemma rows_beyond_cap_dropped_witness :
  format_table (py "http://x.org/t")
    ([py "n"] :: repeat [py "1"] 100 ++ [[py "2"]])
  = format_table (py "http://x.org/t") ([py "n"] :: repeat [py "1"] 100).
Proof.
  apply (rows_beyond_cap_dropped (py "http://x.org/t") [py "n"]
           (repeat [py "1"] 100) [[py "2"]]).
  vm_compute. apply le_n.
Defined.

(** X7.  A page without a [wikitable] costs a fetch and nothing else:
    the rest of the request runs as if no scrape had been asked for. *)
Theorem page_without_table (env : Env) (questions_txt : UploadFile)
  (image_png data_csv : option UploadFile) (key questions_text url : str) :
  GEMINI_API_KEY env = Some key -> key <> [] ->
  decode (content questions_txt) = Some questions_text ->
  scrape_url questions_text = Some url ->
  requests_get env url = Fetched None ->
  process_questions env questions_txt image_png data_csv
  = (Fetch url :: fst (answer env questions_text [] image_png data_csv),
     snd (answer env questions_text [] image_png data_csv)).
Proof.
  intros Hkey Hne Hdec Hurl Hpage.
  rewrite (process_questions_after_scrape _ _ _ _ _ _ _ Hkey Hne Hdec Hurl).
  rewrite Hpage. cbn [scrape].
  now destruct (answer env questions_text [] image_png data_csv).
Qed.

Lemma page_without_table_witness :
  process_questions
    (sample_env (Some (py "key")) (Fetched None) (Generated (py "[1]")))
    (upload "questions.txt" "scrape http://x.org/t") None None
  = ([Fetch (py "http://x.org/t");
      Generate (full_prompt (py "scrape http://x.org/t") [] None None)],
     Ret (JArray [JInt 1])).
Proof.
  rewrite (page_without_table
             (sample_env (Some (py "key")) (Fetched None) (Generated (py "[1]")))
             (upload "questions.txt" "scrape http://x.org/t") None None
             (py "key") (py "scrape http://x.org/t") (py "http://x.org/t")).
  - reflexivity.
  - reflexivity.
  - discriminate.
  - reflexivity.
  - reflexivity.
  - reflexivity.
Defined.

(** ** The clean-up of the reply *)

Lemma lstrip_In (x : N) (s : str) : In x (lstrip s) -> In x s.
Proof.
  induction s as [|c r IH]; [easy|]. simpl.
  destruct (isspace c); [right; now apply IH | intros H; exact H].
Qed.

Lemma rstrip_In (x : N) (s : str) : In x (rstrip s) -> In x s.
Proof.
  unfold rstrip. intros H. apply in_rev in H. apply lstrip_In in H.
  now apply in_rev.
Qed.

Lemma strip_In (x : N) (s : str) : In x (strip s) -> In x s.
Proof. unfold strip. intros H. now apply lstrip_In, rstrip_In. Qed.

Lemma replace_from_In (old new : str) (x : N) (s : str) :
  forall skip, In x (replace_from old new skip s) -> In x new \/ In x s.
Proof.
  induction s as [|c r IH]; intros skip; cbn [replace_from]; [easy|].
  destruct skip as [|k].
  - destruct (startswith old (c :: r)).
    + intros H. apply in_app_or in H as [H | H]; [now left|].
      destruct (IH _ H); [now left | right; now right].
    + intros [-> | H]; [right; now left|].
      destruct (IH _ H); [now left | right; now right].
  - intros H. destruct (IH _ H); [now left | right; now right].
Qed.

Lemma replace_newline_gone (s : str) :
  forall skip, ~ In 10%N (replace_from newline [] skip s).
Proof.
  induction s as [|c r IH]; intros skip; cbn [replace_from]; [easy|].
  destruct skip as [|k]; [|apply IH].
  cbn [startswith newline]. destruct (N.eqb_spec 10 c) as [<- | Hc].
  - cbn [andb]. destruct r; apply IH.
  - cbn [andb]. intros [H | H]; [congruence | now apply (IH 0)].
Qed.

(** X8.  The cleaned reply holds no newline. *)
Theorem clean_has_no_newline (text : str) : ~ In 10%N (clean text).
Proof.
  unfold clean. intros H. apply strip_In in H.
  apply replace_from_In in H as [H | H].
  - vm_compute in H. destruct H as [H | []]. discriminate H.
  - now apply (replace_newline_gone (strip text) 0).
Qed.

Lemma strip_ends (s : str) (c : N) (r : str) :
  strip s = c :: r ->
  isspace c = false /\ isspace (last (c :: r) c) = false.
Proof.
  unfold strip. intros H.
  destruct (lstrip s) as [|c0 r0] eqn:Hl; [discriminate|].
  pose proof (lstrip_head s c0 r0 Hl) as Hc0.
  rewrite (rstrip_cons c0 r0 Hc0) in H. injection H as <- <-.
  split; [exact Hc0|].
  rewrite <- (rstrip_cons c0 r0 Hc0). unfold rstrip.
  destruct (lstrip (rev (c0 :: r0))) as [|d l] eqn:Hrev.
  - exfalso. simpl rev in Hrev. rewrite (lstrip_snoc _ c0 Hc0) in Hrev.
    now destruct (lstrip (rev r0)).
  - simpl rev. rewrite last_last. exact (lstrip_head _ d l Hrev).
Qed.

(** X9.  The cleaned reply neither starts nor ends with whitespace. *)
Theorem clean_is_trimmed (text : str) (c : N) (r : str) :
  clean text = c :: r ->
  isspace c = false /\ isspace (last (c :: r) c) = false.
Proof. unfold clean. apply strip_ends. Qed.

Lemma clean_is_trimmed_witness :
  isspace 91%N = false /\ isspace (last (py "[1, 2]") 91%N) = false.
Proof.
  apply (clean_is_trimmed
           [32; 91; 49; 44; 10; 32; 32; 50; 93; 10]%N 91%N (py "1, 2]")).
  reflexivity.
Defined.

Lemma lstrip_all_space (s : str) : forallb isspace s = true -> lstrip s = [].
Proof.
  induction s as [|c r IH]; [reflexivity|]. simpl.
  intros H. apply andb_true_iff in H as [-> Hr]. now apply IH.
Qed.

(** X10.  A reply of whitespace only is not empty, so it passes the
    guard of line 148; it is cleaned to the empty text, which does not
    parse, and the handler returns the wrapper with an empty
    [response]. *)
Theorem whitespace_reply_is_wrapped (env : Env) (text : str) :
  text <> [] -> forallb isspace text = true ->
  handle_reply env (Generated text) = ret (fallback []).
Proof.
  intros Hne Hws. destruct text as [|c text]; [contradiction|].
  cbn [handle_reply]. unfold normalize, clean, strip.
  rewrite (lstrip_all_space _ Hws). reflexivity.
Qed.

Lemma whitespace_reply_is_wrapped_witness :
  handle_reply (sample_env (Some (py "key")) (Fetched None) (Generated []))
    (Generated [32; 10; 9]%N)
  = ret (fallback []).
Proof.
  apply (whitespace_reply_is_wrapped
           (sample_env (Some (py "key")) (Fetched None) (Generated []))
           [32; 10; 9]%N);
    [discriminate | reflexivity].
Defined.

Lemma normalize_tidy_text_witness :
  normalize (sample_env (Some (py "key")) (Fetched None) (Generated []))
    (py " [1, 2] ")
  = inr (JArray [JInt 1; JInt 2]).
Proof.
  apply (normalize_tidy_text
           (sample_env (Some (py "key")) (Fetched None) (Generated []))
           (py " [1, 2] ") (JArray [JInt 1; JInt 2]));
    reflexivity.
Defined.

Lemma lstrip_length (s : str) : List.length (lstrip s) <= List.length s.
Proof.
  induction s as [|c r IH]; simpl; [lia|].
  destruct (isspace c); simpl; lia.
Qed.

Lemma strip_length (s : str) : List.length (strip s) <= List.length s.
Proof.
  unfold strip, rstrip. rewrite length_rev.
  pose proof (lstrip_length (rev (lstrip s))) as H1.
  rewrite length_rev in H1. pose proof (lstrip_length s). lia.
Qed.

Lemma replace_from_length (old new : str) (s : str) :
  List.length new <= List.length old ->
  forall skip,
    List.length (replace_from old new skip s) + Nat.min skip (List.length s)
    <= List.length s.
Proof.
  intros Hnew. induction s as [|c r IH]; intros skip;
    cbn [replace_from List.length]; [lia|].
  destruct skip as [|k].
  - destruct (startswith old (c :: r)) eqn:Hs.
    + apply startswith_spec in Hs as [rest Hs].
      assert (Hold : List.length old <= S (List.length r)).
      { apply (f_equal (@List.length N)) in Hs.
        rewrite length_app in Hs. cbn [List.length] in Hs. lia. }
      rewrite length_app.
      specialize (IH (List.length old - 1)). lia.
    + cbn [List.length]. specialize (IH 0). lia.
  - specialize (IH k). lia.
Qed.

(** X11.  The clean-up never makes the reply longer. *)
Theorem clean_length (text : str) :
  List.length (clean text) <= List.length text.
Proof.
  unfold clean, replace.
  pose proof (strip_length
                (replace_from (py "  ") (py " ") 0
                   (replace_from newline [] 0 (strip text)))) as H1.
  pose proof (replace_from_length (py "  ") (py " ")
                (replace_from newline [] 0 (strip text))
                ltac:(cbn; lia) 0) as H2.
  pose proof (replace_from_length newline [] (strip text)
                ltac:(cbn; lia) 0) as H3.
  pose proof (strip_length text). lia.
Qed.

(** ** The decoding of the uploads *)

(** X12.  An upload of ASCII bytes decodes to the same characters, one
    for each byte. *)
Theorem decode_ascii (bs : bytes) :
  Forall (fun b => (byte_val b < 128)%N) bs ->
  decode bs = Some (map byte_val bs).
Proof.
  unfold decode. induction 1 as [|b bs Hb _ IH]; [reflexivity|].
  cbn [map utf8_decode]. apply N.ltb_lt in Hb. rewrite Hb, IH. reflexivity.
Qed.

Lemma decode_ascii_witness :
  decode (content (upload "questions.txt" "mean of a?"))
  = Some (py "mean of a?").
Proof.
  rewrite (decode_ascii (content (upload "questions.txt" "mean of a?"))).
  - reflexivity.
  - repeat constructor.
Defined.

Lemma utf8_decode_scalar (n : nat) :
  forall (bs : list N) (s : str),
    List.length bs <= n ->
    utf8_decode bs = Some s ->
    Forall (fun c => (c <= 1114111)%N /\ ~ (55296 <= c <= 57343)%N) s.
Proof.
  induction n as [|n IH]; intros bs s Hn H.
  - destruct bs; [|cbn [List.length] in Hn; lia].
    injection H as <-. constructor.
  - destruct bs as [|b0 r]; [injection H as <-; constructor|].
    cbn [utf8_decode] in H. cbn [List.length] in Hn.
    destruct (N.ltb_spec b0 128) as [H0|H0].
    { destruct (utf8_decode r) as [s'|] eqn:Hr; [|discriminate].
      injection H as <-. constructor; [lia|]. apply (IH r); [lia | exact Hr]. }
    destruct (N.ltb_spec b0 194) as [H1|H1]; [discriminate|].
    destruct (N.ltb_spec b0 224) as [H2|H2].
    { destruct r as [|b1 r1]; [discriminate|].
      destruct (is_cont b1) eqn:Hc1; [|discriminate].
      destruct (utf8_decode r1) as [s'|] eqn:Hr; [|discriminate].
      injection H as <-. unfold is_cont in Hc1.
      apply andb_true_iff in Hc1 as [Ha Hb].
      apply N.leb_le in Ha, Hb. constructor; [lia|].
      apply (IH r1); [cbn [List.length] in Hn; lia | exact Hr]. }
    destruct (N.ltb_spec b0 240) as [H3|H3].
    { destruct r as [|b1 [|b2 r2]]; try discriminate.
      match type of H with
      | (if ?cond then _ else _) = _ => destruct cond eqn:Hcond
      end; [|discriminate].
      destruct (utf8_decode r2) as [s'|] eqn:Hr; [|discriminate].
      injection H as <-.
      apply andb_true_iff in Hcond as [Hcond Hsur].
      apply andb_true_iff in Hcond as [Hcond Hmin].
      apply andb_true_iff in Hcond as [Hc1 Hc2].
      unfold is_cont in Hc1, Hc2.
      apply andb_true_iff in Hc1 as [Ha1 Hb1].
      apply andb_true_iff in Hc2 as [Ha2 Hb2].
      apply N.leb_le in Ha1, Hb1, Ha2, Hb2.
      apply negb_true_iff, andb_false_iff in Hsur.
      constructor.
      - split; [lia|]. destruct Hsur as [Hs | Hs]; apply N.leb_gt in Hs; lia.
      - apply (IH r2); [cbn [List.length] in Hn; lia | exact Hr]. }
    destruct (N.ltb_spec b0 245) as [H4|H4]; [|discriminate].
    destruct r as [|b1 [|b2 [|b3 r3]]]; try discriminate.
    match type of H with
    | (if ?cond then _ else _) = _ => destruct cond eqn:Hcond
    end; [|discriminate].
    destruct (utf8_decode r3) as [s'|] eqn:Hr; [|discriminate].
    injection H as <-.
    apply andb_true_iff in Hcond as [Hcond Hmax].
    apply andb_true_iff in Hcond as [_ Hmin].
    apply N.leb_le in Hmax, Hmin.
    constructor; [lia|].
    apply (IH r3); [cbn [List.length] in Hn; lia | exact Hr].
Qed.

(** X13.  Whatever the bytes of an upload, the text it decodes to holds
    Unicode scalar values only: nothing above U+10FFFF and no
    surrogate. *)
Theorem decode_scalar_values (bs : bytes) (s : str) :
  decode bs = Some s ->
  Forall (fun c => (c <= 1114111)%N /\ ~ (55296 <= c <= 57343)%N) s.
Proof.
  unfold decode. apply (utf8_decode_scalar (List.length (map byte_val bs))).
  apply le_n.
Qed.

Lemma decode_scalar_values_witness :
  Forall (fun c => (c <= 1114111)%N /\ ~ (55296 <= c <= 57343)%N) [233%N].
Proof.
  apply (decode_scalar_values [Byte.xc3; Byte.xa9] [233%N]). reflexivity.
Defined.

(** ** The prompt *)

Lemma join_last (sep : str) (parts : list str) (x : str) :
  exists before, join sep (parts ++ [x]) = before ++ x.
Proof.
  induction parts as [|p ps [before IH]].
  - now exists [].
  - exists (p ++ sep ++ before). cbn [app join].
    destruct (ps ++ [x]) as [|q qs] eqn:Hq.
    + now destruct ps.
    + rewrite IH, <- !app_assoc. reflexivity.
Qed.

Lemma prompt_notes_csv (scraped_data : str) (image_name : option str)
  (csv_text : str) :
  exists others,
    filter non_empty (prompt_notes scraped_data image_name (Some csv_text))
    = others ++ [py "CSV Data: " ++ csv_text].
Proof.
  unfold prompt_notes.
  set (a := match scraped_data with [] => [] | _ :: _ => _ end).
  set (b := match image_name with Some _ => _ | None => _ end).
  exists (filter non_empty (a ++ b)).
  rewrite app_assoc, filter_app. reflexivity.
Qed.

(** X14.  The text of [data.csv] is put in the prompt twice: right after
    the instructions, and again in the last note, at the very end; the
    question text stands between the two. *)
Theorem csv_text_embedded_twice (questions_text scraped_data : str)
  (image_name : option str) (csv_text : str) :
  exists middle,
    full_prompt questions_text scraped_data image_name (Some csv_text)
    = INSTRUCTIONS ++ csv_text ++ middle ++ py "CSV Data: " ++ csv_text
    /\ Substring questions_text middle.
Proof.
  unfold full_prompt.
  destruct (prompt_notes_csv scraped_data image_name csv_text) as [others ->].
  destruct (join_last newline others (py "CSV Data: " ++ csv_text))
    as [before ->].
  exists (newline ++ newline ++ py "Request to process:" ++ newline
            ++ questions_text ++ newline ++ before).
  split.
  - rewrite <- !app_assoc. reflexivity.
  - exists (newline ++ newline ++ py "Request to process:" ++ newline),
      (newline ++ before).
    rewrite <- !app_assoc. reflexivity.
Qed.

(** ** The cells of the scraped table *)

(** X15.  The rows kept from a table all have cells, no header or data
    cell keeps whitespace at its ends, and no row is made up: there are
    at most as many rows as the table has [tr] elements after the
    first. *)
Theorem scraped_cells_trimmed (table : Table) :
  Forall (fun cell => strip cell = cell) (table_headers table)
  /\ Forall (fun row => row <> [] /\ Forall (fun cell => strip cell = cell) row)
       (table_rows table)
  /\ List.length (table_rows table) <= List.length (tl table).
Proof.
  rewrite table_headers_eq, table_rows_eq.
  assert (Htrim : forall row : list str,
            Forall (fun cell => strip cell = cell) (map strip row)).
  { intros row. apply Forall_forall. intros cell Hin.
    apply in_map_iff in Hin as [raw [<- _]]. apply strip_idempotent. }
  split; [apply Htrim|]. split.
  - apply Forall_forall. intros row Hin.
    apply filter_In in Hin as [Hin Hcells].
    apply in_map_iff in Hin as [raw [<- _]].
    split; [|apply Htrim].
    intros Hnil. rewrite Hnil in Hcells. discriminate.
  - pose proof (filter_length_le has_cells (map (map strip) (tl table))) as H.
    now rewrite length_map in H.
Qed.

(** ** Replies the clean-up leaves alone *)

(** X16.  A non-empty reply that, once stripped, holds no newline and no
    two spaces in a row, and that [json.loads] parses, is parsed as it
    stands: the handler returns the value of the stripped reply. *)
Theorem tidy_reply_parsed_as_is (env : Env) (text : str) (value : json) :
  text <> [] ->
  contains newline (strip text) = false ->
  contains (py "  ") (strip text) = false ->
  Json.loads (recursion_room env) (int_max_str_digits env) (strip text)
  = Json.Parsed value ->
  handle_reply env (Generated text) = ret value.
Proof.
  intros Hne Hnl Hsp Hv. destruct text as [|c text]; [contradiction|].
  cbn [handle_reply]. now rewrite (normalize_tidy_text env _ value Hnl Hsp Hv).
Qed.

Lemma tidy_reply_parsed_as_is_witness :
  handle_reply (sample_env (Some (py "key")) (Fetched None) (Generated []))
    (Generated (Json.jpy " {'mean': 4, 'city': 'Oslo S'} "))
  = ret (JObject [(py "mean", JInt 4); (py "city", JString (py "Oslo S"))]).
Proof.
  apply (tidy_reply_parsed_as_is
           (sample_env (Some (py "key")) (Fetched None) (Generated []))
           (Json.jpy " {'mean': 4, 'city': 'Oslo S'} "));
    [discriminate | reflexivity | reflexivity | reflexivity].
Defined.
